(** * The how-to-guides notebooks: NER with NLTK, and IIIF access

    A shallow embedding of the code cells of the two notebooks

    - [SLV_LAB_getting_started_NER.ipynb] (tokenise, tag, chunk), and
    - [working_with_images_IIIF.ipynb] (fetch a presentation manifest,
      read fields of it, build Image API URLs and fetch the images).

    The source keeps both in one file, the second after the first.

    A notebook is a list of cells run in order by one kernel.  A cell
    reads and assigns variables of the kernel's namespace, calls library
    functions, and writes to the cell output.  Calls into NLTK, svgling,
    requests, PIL and IPython are calls of a [library] record: what the
    notebooks fix is which names and attributes are looked up, which
    calls are made, in which order, on which arguments, and what happens
    to what they return or raise. *)

From Stdlib Require Import ZArith Ascii String List Bool Lia.
From stdpp Require Import base option strings pretty gmap.
Import ListNotations.

Set Warnings "-register-all".

Local Open Scope Z_scope.
Local Open Scope string_scope.
Local Open Scope list_scope.

(** ** Python values *)

(** The values the notebooks hold in variables: the data a JSON body
    decodes to, the lists, tuples and trees NLTK returns, and objects of
    a library (a module, a [Response], a raw stream, an image, a
    [TreeLayout], a [PrettyPrinter]) by class name and identity.  A
    [dict] keeps its items in insertion order, under distinct keys, which
    are strings in what JSON decodes to; a float is kept by its bit
    pattern, no cell computes with one; [nltk.Tree] is a [list] subclass
    with a label. *)
Inductive pyval : Type :=
| PNone
| PBool (b : bool)
| PInt (n : Z)
| PFloat (bits : Z)
| PStr (s : string)
| PList (l : list pyval)
| PTuple (l : list pyval)
| PDict (d : list (string * pyval))
| PTree (label : string) (children : list pyval)
| PObj (cls : string) (h : N).

(** ** Exceptions *)

Inductive exn : Type :=
| NameError (x : string)
| KeyError (k : pyval)
| IndexError
| TypeError
| AttributeError (name : string)
| Raised (cls : string) (msg : string).

Inductive Except (A : Type) : Type :=
| ok (a : A)
| error (e : exn).
Arguments ok {A} a.
Arguments error {A} e.

(** One outcome fed to the next computation; an exception passes
    through. *)
Definition ebind {A B} (r : Except A) (f : A -> Except B) : Except B :=
  match r with
  | ok a => f a
  | error e => error e
  end.

(** ** Subscripts and iteration *)

(** [d[k]] on the items of a dict. *)
Fixpoint dict_get (k : string) (d : list (string * pyval)) : option pyval :=
  match d with
  | [] => None
  | (k', v) :: d' => if String.eqb k k' then Some v else dict_get k d'
  end.

(** [l[i]] for [i] an int: negative indices count from the end. *)
Definition seq_index {A} (l : list A) (i : Z) : option A :=
  let n := Z.of_nat (length l) in
  if ((0 <=? i) && (i <? n))%Z then nth_error l (Z.to_nat i)
  else if ((- n <=? i) && (i <? 0))%Z then nth_error l (Z.to_nat (n + i))
  else None.

(** A [str] is kept as its UTF-8 encoding.  A character is a code
    point: a byte that is no continuation byte ([10xxxxxx]), with the
    continuation bytes that follow it. *)
Definition is_continuation (a : ascii) : bool :=
  let n := nat_of_ascii a in (128 <=? n)%nat && (n <? 192)%nat.

Definition starts_with_continuation (s : string) : bool :=
  match s with
  | EmptyString => false
  | String a _ => is_continuation a
  end.

Fixpoint code_points (s : string) : list string :=
  match s with
  | EmptyString => []
  | String a s' =>
      match code_points s' with
      | c :: cs =>
          if starts_with_continuation s' then String a c :: cs
          else String a EmptyString :: c :: cs
      | [] => [String a EmptyString]
      end
  end.

(** The characters of a [str], each a [str] of length one. *)
Definition chars (s : string) : list pyval := map PStr (code_points s).

(** ** Equality of values *)

(** [a is b] for objects of a library, which are kept by identity;
    equality of the data otherwise. *)
Fixpoint pyval_eqb (a b : pyval) : bool :=
  match a, b with
  | PNone, PNone => true
  | PBool x, PBool y => Bool.eqb x y
  | PInt x, PInt y => (x =? y)%Z
  | PFloat x, PFloat y => (x =? y)%Z
  | PStr x, PStr y => String.eqb x y
  | PList x, PList y | PTuple x, PTuple y =>
      (fix all2 (x y : list pyval) : bool :=
         match x, y with
         | [], [] => true
         | u :: x', v :: y' => pyval_eqb u v && all2 x' y'
         | _, _ => false
         end) x y
  | PDict x, PDict y =>
      (fix all2 (x y : list (string * pyval)) : bool :=
         match x, y with
         | [], [] => true
         | (j, u) :: x', (k, v) :: y' => String.eqb j k && pyval_eqb u v && all2 x' y'
         | _, _ => false
         end) x y
  | PTree l x, PTree m y =>
      String.eqb l m
      && (fix all2 (x y : list pyval) : bool :=
            match x, y with
            | [], [] => true
            | u :: x', v :: y' => pyval_eqb u v && all2 x' y'
            | _, _ => false
            end) x y
  | PObj c h, PObj d i => String.eqb c d && (h =? i)%N
  | _, _ => false
  end.

Section Subscripts.

(** What [o[k]] and [iter(o)] do on an object of a library. *)
Variable obj_getitem : string -> N -> pyval -> Except pyval.
Variable obj_iter : string -> N -> Except (list pyval).

(** [v["k"]] *)
Definition getitem_key (v : pyval) (k : string) : Except pyval :=
  match v with
  | PDict d =>
      match dict_get k d with
      | Some x => ok x
      | None => error (KeyError (PStr k))
      end
  | PObj cls h => obj_getitem cls h (PStr k)
  | _ => error TypeError
  end.

(** [v[i]] *)
Definition getitem_int (v : pyval) (i : Z) : Except pyval :=
  match v with
  | PList l | PTuple l | PTree _ l =>
      match seq_index l i with
      | Some x => ok x
      | None => error IndexError
      end
  | PStr s =>
      match seq_index (chars s) i with
      | Some x => ok x
      | None => error IndexError
      end
  | PDict _ => error (KeyError (PInt i))
  | PObj cls h => obj_getitem cls h (PInt i)
  | _ => error TypeError
  end.

(** [for x in v]: the values [x] takes. *)
Definition iterate (v : pyval) : Except (list pyval) :=
  match v with
  | PList l | PTuple l | PTree _ l => ok l
  | PStr s => ok (chars s)
  | PDict d => ok (map (fun kv => PStr (fst kv)) d)
  | PObj cls h => obj_iter cls h
  | _ => error TypeError
  end.

(** A chain of subscripts, [v[a][b][c]]. *)
Inductive access : Type :=
| Key (k : string)
| Idx (i : Z).

Definition getitem (v : pyval) (a : access) : Except pyval :=
  match a with
  | Key k => getitem_key v k
  | Idx i => getitem_int v i
  end.

Fixpoint getpath (v : pyval) (p : list access) : Except pyval :=
  match p with
  | [] => ok v
  | a :: p' =>
      match getitem v a with
      | ok x => getpath x p'
      | error e => error e
      end
  end.

End Subscripts.

(** ** Formatted string literals *)

(** A piece of an f-string: literal text, or a replacement field. *)
Inductive fpart : Type :=
| Lit (s : string)
| Field (v : pyval).

Section FStrings.

(** The builtin [str] on a value that is not a [str]. *)
Variable builtin_str : pyval -> string.

(** [format(v, "")], what [{v}] contributes to an f-string. *)
Definition py_format (v : pyval) : string :=
  match v with
  | PStr s => s
  | _ => builtin_str v
  end.

Definition fpart_str (p : fpart) : string :=
  match p with
  | Lit s => s
  | Field v => py_format v
  end.

Definition fstring (ps : list fpart) : string :=
  fold_right (fun p acc => fpart_str p +:+ acc) "" ps.

End FStrings.

(** ** The two URL forms of the IIIF standards, as the notebook cites them *)

(** [{server}/delivery/iiif/presentation/2.1/{identifier}/manifest] *)
Definition presentation_manifest_form (server identifier : string) : string :=
  server +:+ "/delivery/iiif/presentation/2.1/" +:+ identifier +:+ "/manifest".

(** [{scheme}://{server}/{prefix}/{identifier}/{region}/{size}/{rotation}/{quality}.{format}] *)
Definition image_api_form
    (scheme server prefix identifier region size rotation quality format : string)
    : string :=
  scheme +:+ "://" +:+ server +:+ "/" +:+ prefix +:+ "/" +:+ identifier
    +:+ "/" +:+ region +:+ "/" +:+ size +:+ "/" +:+ rotation
    +:+ "/" +:+ quality +:+ "." +:+ format.

(** The same form from the image service's base URI
    [{scheme}://{server}/{prefix}/{identifier}], which is what a
    manifest gives as the service ['@id']. *)
Definition image_request (base region size rotation quality format : string)
    : string :=
  base +:+ "/" +:+ region +:+ "/" +:+ size +:+ "/" +:+ rotation
    +:+ "/" +:+ quality +:+ "." +:+ format.

(** ** The libraries *)

(** What the notebooks call and do not define.  A call returns a value
    or raises; [system] is IPython's [!cmd], which gives the command's
    exit status and raises nothing; [import_module] gives the module
    object of a name; the functions named after a module ([nltk_download]
    to [pprint_PrettyPrinter]) are the functions that module has under
    these names, [requests_get] with or without [stream=True];
    [builtin_str] is [str] on values that are not strings; [obj_getitem]
    and [obj_iter] are [o[k]] and [iter(o)] on an object of a library,
    [obj_getattr] is [o.name] on one, [obj_callable] whether one can be
    called, and [obj_call] the call of one on positional and keyword
    arguments. *)
Record library : Type := {
  system : string -> Z;
  import_module : string -> Except pyval;
  nltk_download : pyval -> Except pyval;
  nltk_word_tokenize : pyval -> Except pyval;
  nltk_pos_tag : pyval -> Except pyval;
  nltk_ne_chunk : pyval -> Except pyval;
  nltk_help_upenn_tagset : pyval -> Except pyval;
  svgling_draw_tree : pyval -> pyval -> Except pyval;
  requests_get : pyval -> bool -> Except pyval;
  Image_open : pyval -> Except pyval;
  pprint_PrettyPrinter : Except pyval;
  display : pyval -> Except pyval;
  builtin_str : pyval -> string;
  obj_getitem : string -> N -> pyval -> Except pyval;
  obj_iter : string -> N -> Except (list pyval);
  obj_getattr : pyval -> string -> Except pyval;
  obj_callable : pyval -> bool;
  obj_call : pyval -> list pyval -> list (string * pyval) -> Except pyval
}.

(** ** Attributes and calls *)

(** The attributes the notebooks look up with a dot. *)
Inductive attr : Type :=
| a_download | a_word_tokenize | a_pos_tag | a_help | a_upenn_tagset
| a_ne_chunk | a_draw_tree | a_get | a_json | a_raw | a_open
| a_PrettyPrinter | a_pprint.

Definition attr_name (a : attr) : string :=
  match a with
  | a_download => "download"
  | a_word_tokenize => "word_tokenize"
  | a_pos_tag => "pos_tag"
  | a_help => "help"
  | a_upenn_tagset => "upenn_tagset"
  | a_ne_chunk => "ne_chunk"
  | a_draw_tree => "draw_tree"
  | a_get => "get"
  | a_json => "json"
  | a_raw => "raw"
  | a_open => "open"
  | a_PrettyPrinter => "PrettyPrinter"
  | a_pprint => "pprint"
  end.

(** What a dotted name in call position evaluates to: the function the
    library has under this name, or an attribute found on some other
    object. *)
Inductive callee : Type :=
| LibraryFunction
| Attribute (f : pyval).

Section Attributes.

Variable L : library.

(** [v.a].  [None], a [bool], an [int], a [float], a [str], a [list]
    and a [tuple] have none of these attributes, and a [dict] has [get]
    only, a method of the runtime; an object of a library has what the
    library gives it. *)
Definition py_getattr (v : pyval) (a : attr) : Except pyval :=
  match v with
  | PObj _ _ | PTree _ _ => obj_getattr L v (attr_name a)
  | PDict _ =>
      match a with
      | a_get => obj_getattr L v (attr_name a)
      | _ => error (AttributeError (attr_name a))
      end
  | _ => error (AttributeError (attr_name a))
  end.

(** Whether [f(...)] is a call: the data of the notebooks cannot be
    called, nor can a tree; an object of a library may. *)
Definition object_callable (f : pyval) : bool :=
  match f with
  | PObj _ _ => obj_callable L f
  | _ => false
  end.

(** [f(args, **kwargs)] on a value. *)
Definition apply_object (f : pyval) (args : list pyval)
    (kwargs : list (string * pyval)) : Except pyval :=
  if object_callable f then obj_call L f args kwargs else error TypeError.

(** [v] is the module that [import name] gives. *)
Definition is_module (name : string) (v : pyval) : bool :=
  match import_module L name with
  | ok m => pyval_eqb v m
  | error _ => false
  end.

(** [v.a] where the source means the attribute [a] of the module
    [name]: on that module it is the library's function; on any other
    value bound to the variable it is what that value has. *)
Definition module_attr (name : string) (v : pyval) (a : attr) : Except callee :=
  if is_module name v then ok LibraryFunction
  else ebind (py_getattr v a) (fun f => ok (Attribute f)).

(** A further attribute of it, as in [nltk.help.upenn_tagset]. *)
Definition callee_attr (c : callee) (a : attr) : Except callee :=
  match c with
  | LibraryFunction => ok LibraryFunction
  | Attribute v => ebind (py_getattr v a) (fun f => ok (Attribute f))
  end.

Definition callable (c : callee) : bool :=
  match c with
  | LibraryFunction => true
  | Attribute f => object_callable f
  end.

(** What the call gives: [real] is what the library's function gives on
    these arguments. *)
Definition callee_result (c : callee) (args : list pyval)
    (kwargs : list (string * pyval)) (real : Except pyval) : Except pyval :=
  match c with
  | LibraryFunction => real
  | Attribute f => apply_object f args kwargs
  end.

(** [resp.json()]: the attribute, then the call of it; and [resp.raw]. *)
Definition Response_json (resp : pyval) : Except pyval :=
  ebind (py_getattr resp a_json) (fun f => apply_object f [] []).

Definition Response_raw (resp : pyval) : Except pyval :=
  py_getattr resp a_raw.

End Attributes.

(** ** The kernel *)

(** What a run leaves behind, in order: the calls made, each by the
    name the source calls it by and with its arguments (of a method the
    object first, keyword arguments after the positional ones), whether
    they returned or raised; the lines [print] wrote; and the values
    shown as a cell's result. *)
Inductive event : Type :=
| ECall (fn : string) (args : list pyval)
| EStdout (line : string)
| EOut (v : pyval).

Record kernel : Type := {
  ns : gmap string pyval;
  log : list event
}.

Definition fresh_kernel : kernel := {| ns := ∅; log := [] |}.

(** A statement or expression: from a kernel state to a value or an
    exception, and the state after it.  What was assigned, called and
    written before an exception stays.  The namespace holds the
    variables the cells name; IPython's history variables ([_], [Out],
    [In]) are left out, and [print] and [display] are the builtins of
    these names, which no cell binds. *)
Definition Py (A : Type) : Type := kernel -> Except A * kernel.

Definition ret {A} (a : A) : Py A := fun k => (ok a, k).

Definition bind {A B} (m : Py A) (f : A -> Py B) : Py B :=
  fun k =>
    match m k with
    | (ok a, k') => f a k'
    | (error e, k') => (error e, k')
    end.

Notation "'let*' x ':=' m 'in' f" := (bind m (fun x => f))
  (at level 10, x name, m at level 100, f at level 200).
Notation "m ';;' f" := (bind m (fun _ => f))
  (at level 100, f at level 200, right associativity).

(** The outcome of a library call, raised if it is an exception. *)
Definition lift {A} (r : Except A) : Py A := fun k => (r, k).

Definition emit (ev : event) : Py unit :=
  fun k => (ok tt, {| ns := ns k; log := log k ++ [ev] |}).

(** [x] as an expression. *)
Definition get_var (x : string) : Py pyval :=
  fun k =>
    match ns k !! x with
    | Some v => (ok v, k)
    | None => (error (NameError x), k)
    end.

(** [x = v] *)
Definition set_var (x : string) (v : pyval) : Py unit :=
  fun k => (ok tt, {| ns := <[x := v]> (ns k); log := log k |}).

(** A call of a library function: logged, then returned or raised. *)
Definition call (fn : string) (args : list pyval) (r : Except pyval) : Py pyval :=
  emit (ECall fn args) ;; lift r.

(** An expression as the last statement of a cell: its value is the
    cell's result, shown unless it is [None]. *)
Definition out (v : pyval) : Py unit :=
  match v with
  | PNone => ret tt
  | _ => emit (EOut v)
  end.

(** The cells of a notebook, top to bottom; the first exception ends
    the run. *)
Fixpoint run_cells (cells : list (Py unit)) : Py unit :=
  match cells with
  | [] => ret tt
  | c :: cs => c ;; run_cells cs
  end.

(** [for x in xs: body], over the values [xs] gives. *)
Fixpoint for_each (x : string) (xs : list pyval) (body : Py unit) : Py unit :=
  match xs with
  | [] => ret tt
  | v :: xs' => set_var x v ;; body ;; for_each x xs' body
  end.

(** ** The cells *)

Section Statements.

Variable L : library.

(** [import m] and [from p import m]: the module, bound to its name. *)
Definition import (name as_ : string) : Py unit :=
  let* m := call "import" [PStr name] (import_module L name) in
  set_var as_ m.

(** [print(a, b)] *)
Definition print (a b : pyval) : Py unit :=
  emit (EStdout (py_format (builtin_str L) a +:+ " " +:+ py_format (builtin_str L) b)).

(** [m.f(args, **kwargs)], with [m.f] and the arguments evaluated: what
    cannot be called raises [TypeError], and no call is made. *)
Definition call_callee (fn : string) (c : callee) (args : list pyval)
    (kwargs : list (string * pyval)) (real : Except pyval) : Py pyval :=
  if callable L c
  then call fn (args ++ map snd kwargs) (callee_result L c args kwargs real)
  else lift (error TypeError).

(** [o.f(args)], with the bound method [o.f] and the arguments
    evaluated. *)
Definition call_method (fn : string) (self f : pyval) (args : list pyval)
    : Py pyval :=
  if callable L (Attribute f)
  then call fn (self :: args) (apply_object L f args [])
  else lift (error TypeError).

(** [v[k]] and [v[i]] as expressions. *)
Definition subscript_key (v : pyval) (k : string) : Py pyval :=
  lift (getitem_key (obj_getitem L) v k).

Definition subscript_int (v : pyval) (i : Z) : Py pyval :=
  lift (getitem_int (obj_getitem L) v i).

End Statements.

(** *** SLV_LAB_getting_started_NER.ipynb *)

Module Ner.

Section Cells.

Variable L : library.

(** [! pip install nltk svgling]: IPython hands the text after the [!]
    to the shell as it stands, and keeps the exit status in
    [_exit_code]. *)
Definition cell_install : Py unit :=
  emit (ECall "system" [PStr " pip install nltk svgling"]) ;;
  set_var "_exit_code" (PInt (system L " pip install nltk svgling")).

(** [nltk.download(name)] as a statement. *)
Definition download (name : string) : Py pyval :=
  let* nltk := get_var "nltk" in
  let* f := lift (module_attr L "nltk" nltk a_download) in
  call_callee L "nltk.download" f [PStr name] [] (nltk_download L (PStr name)).

Definition cell_download : Py unit :=
  import L "nltk" "nltk" ;;
  download "punkt_tab" ;;
  download "averaged_perceptron_tagger_eng" ;;
  download "maxent_ne_chunker_tab" ;;
  download "words" ;;
  let* r := download "tagsets_json" in
  out r.

Definition nl : string := String "010"%char EmptyString.

Definition about_slv_text : string :=
  nl +:+ "    Located in Melbourne, it was established in 1854 as the Melbourne Public Library,"
  +:+ nl +:+ "    making it Australia's oldest public library and one of the first free libraries in the world."
  +:+ nl +:+ "    ".

Definition cell_about_slv : Py unit :=
  set_var "about_slv" (PStr about_slv_text).

Definition cell_tokens : Py unit :=
  let* nltk := get_var "nltk" in
  let* f := lift (module_attr L "nltk" nltk a_word_tokenize) in
  let* text := get_var "about_slv" in
  let* r := call_callee L "nltk.word_tokenize" f [text] []
              (nltk_word_tokenize L text) in
  set_var "tokens" r ;;
  let* v := get_var "tokens" in
  out v.

Definition cell_tagged_tokens : Py unit :=
  let* nltk := get_var "nltk" in
  let* f := lift (module_attr L "nltk" nltk a_pos_tag) in
  let* toks := get_var "tokens" in
  let* r := call_callee L "nltk.pos_tag" f [toks] [] (nltk_pos_tag L toks) in
  set_var "tagged_tokens" r ;;
  let* v := get_var "tagged_tokens" in
  out v.

Definition cell_tagset (pattern : string) : Py unit :=
  let* nltk := get_var "nltk" in
  let* help := lift (module_attr L "nltk" nltk a_help) in
  let* f := lift (callee_attr L help a_upenn_tagset) in
  let* r := call_callee L "nltk.help.upenn_tagset" f [PStr pattern] []
              (nltk_help_upenn_tagset L (PStr pattern)) in
  out r.

Definition cell_entities : Py unit :=
  import L "svgling" "svgling" ;;
  let* nltk := get_var "nltk" in
  let* f := lift (module_attr L "nltk" nltk a_ne_chunk) in
  let* tagged := get_var "tagged_tokens" in
  let* r := call_callee L "nltk.ne_chunk" f [tagged] [] (nltk_ne_chunk L tagged) in
  set_var "entities" r ;;
  let* svgling := get_var "svgling" in
  let* draw := lift (module_attr L "svgling" svgling a_draw_tree) in
  let* ents := get_var "entities" in
  let* d := call_callee L "svgling.draw_tree" draw [ents] [("font_size", PInt 10)]
              (svgling_draw_tree L ents (PInt 10)) in
  out d.

Definition notebook : list (Py unit) :=
  [ cell_install; cell_download; cell_about_slv; cell_tokens;
    cell_tagged_tokens; cell_tagset "NNP"; cell_tagset "NN*"; cell_entities ].

Definition run : Py unit := run_cells notebook.

End Cells.

End Ner.

(** *** working_with_images_IIIF.ipynb *)

Module Iiif.

Section Cells.

Variable L : library.

Notation "v '.[' k ']'" := (subscript_key L v k) (at level 1, left associativity).

Definition cell_ie_pid (pid : string) : Py unit :=
  set_var "ie_pid" (PStr pid).

Definition manifest_url_of (ie_pid : pyval) : string :=
  fstring (builtin_str L)
    [ Lit "https://rosetta.slv.vic.gov.au/delivery/iiif/presentation/2.1/";
      Field ie_pid; Lit "/manifest" ].

Definition cell_manifest : Py unit :=
  import L "requests" "requests" ;;
  import L "pprint" "pprint" ;;
  let* ie_pid := get_var "ie_pid" in
  set_var "manifest_url" (PStr (manifest_url_of ie_pid)) ;;
  let* requests := get_var "requests" in
  let* get := lift (module_attr L "requests" requests a_get) in
  let* url := get_var "manifest_url" in
  let* resp := call_callee L "requests.get" get [url] [] (requests_get L url false) in
  set_var "response" resp ;;
  let* resp := get_var "response" in
  let* json := lift (py_getattr L resp a_json) in
  let* m := call_method L "Response.json" resp json [] in
  set_var "manifest" m ;;
  let* pprint := get_var "pprint" in
  let* new := lift (module_attr L "pprint" pprint a_PrettyPrinter) in
  let* printer := call_callee L "pprint.PrettyPrinter" new [] [] (pprint_PrettyPrinter L) in
  set_var "pp" printer ;;
  let* printer := get_var "pp" in
  let* method := lift (py_getattr L printer a_pprint) in
  let* m := get_var "manifest" in
  let* r := call_method L "PrettyPrinter.pprint" printer method [m] in
  out r.

Definition cell_fields : Py unit :=
  let* m := get_var "manifest" in
  let* a := m.["attribution"] in
  set_var "attribution" a ;;
  let* m := get_var "manifest" in
  let* t := m.["label"] in
  set_var "title" t ;;
  let* a := get_var "attribution" in
  let* t := get_var "title" in
  out (PStr (fstring (builtin_str L)
               [ Lit "Copyright:  "; Field a; Lit ". Title: "; Field t ])).

Definition cell_canvases : Py unit :=
  let* m := get_var "manifest" in
  let* seqs := m.["sequences"] in
  let* seq0 := subscript_int L seqs 0 in
  let* cs := seq0.["canvases"] in
  set_var "canvases" cs ;;
  let* v := get_var "canvases" in
  out v.

(** [canvas["images"][0]["resource"]] *)
Definition canvas_resource : Py pyval :=
  let* canvas := get_var "canvas" in
  let* images := canvas.["images"] in
  let* image0 := subscript_int L images 0 in
  image0.["resource"].

Definition loop_body : Py unit :=
  (let* res := canvas_resource in
   let* service := res.["service"] in
   let* id := service.["@id"] in
   print L (PStr "Image ID") id) ;;
  (let* res := canvas_resource in
   let* fmt := res.["format"] in
   print L (PStr "Format") fmt) ;;
  (let* res := canvas_resource in
   let* w := res.["width"] in
   print L (PStr "Width") w) ;;
  (let* res := canvas_resource in
   let* h := res.["height"] in
   print L (PStr "Height") h).

Definition cell_loop : Py unit :=
  let* cs := get_var "canvases" in
  let* items := lift (iterate (obj_iter L) cs) in
  for_each "canvas" items loop_body.

Definition cell_image_id : Py unit :=
  let* cs := get_var "canvases" in
  let* canvas0 := subscript_int L cs 0 in
  let* images := canvas0.["images"] in
  let* image0 := subscript_int L images 0 in
  let* res := image0.["resource"] in
  let* service := res.["service"] in
  let* id := service.["@id"] in
  set_var "image_id" id ;;
  let* v := get_var "image_id" in
  out v.

(** [img = Image.open(requests.get(image_url, stream=True).raw)] and
    [display(img)], the two statements that end each image cell. *)
Definition fetch_and_display : Py unit :=
  let* image := get_var "Image" in
  let* open := lift (module_attr L "PIL.Image" image a_open) in
  let* requests := get_var "requests" in
  let* get := lift (module_attr L "requests" requests a_get) in
  let* url := get_var "image_url" in
  let* resp := call_callee L "requests.get" get [url] [("stream", PBool true)]
                 (requests_get L url true) in
  let* raw := lift (Response_raw L resp) in
  let* img := call_callee L "Image.open" open [raw] [] (Image_open L raw) in
  set_var "img" img ;;
  let* img := get_var "img" in
  let* r := call "display" [img] (display L img) in
  out r.

(** [image_url = f"{image_id}/{region}/{size}/{rotation}/{quality}.jpg"] *)
Definition assign_image_url : Py unit :=
  let* id := get_var "image_id" in
  let* region := get_var "region" in
  let* size := get_var "size" in
  let* rotation := get_var "rotation" in
  let* quality := get_var "quality" in
  set_var "image_url"
    (PStr (fstring (builtin_str L)
             [ Field id; Lit "/"; Field region; Lit "/"; Field size; Lit "/";
               Field rotation; Lit "/"; Field quality; Lit ".jpg" ])).

Definition cell_full : Py unit :=
  import L "PIL.Image" "Image" ;;
  (let* id := get_var "image_id" in
   set_var "image_url"
     (PStr (fstring (builtin_str L) [ Field id; Lit "/full/max/0/default.jpg" ]))) ;;
  fetch_and_display.

Definition cell_size : Py unit :=
  set_var "region" (PStr "full") ;;
  set_var "rotation" (PStr "0") ;;
  set_var "size" (PStr "pct:10") ;;
  set_var "quality" (PStr "default") ;;
  assign_image_url ;;
  fetch_and_display.

Definition cell_quality : Py unit :=
  set_var "quality" (PStr "gray") ;;
  assign_image_url ;;
  fetch_and_display.

Definition cell_region_left : Py unit :=
  set_var "region" (PStr "0,1400,2400,2300") ;;
  set_var "size" (PStr "pct:15") ;;
  assign_image_url ;;
  fetch_and_display.

Definition cell_region_right : Py unit :=
  set_var "region" (PStr "3400,1400,2700,2700") ;;
  assign_image_url ;;
  fetch_and_display.

(** The five cells that request an image. *)
Definition image_cells : list (Py unit) :=
  [ cell_full; cell_size; cell_quality; cell_region_left; cell_region_right ].

(** The notebook, by the identifier its first cell assigns. *)
Definition manifest_cells (pid : string) : list (Py unit) :=
  [ cell_ie_pid pid; cell_manifest; cell_fields; cell_canvases; cell_loop;
    cell_image_id ].

Definition cells (pid : string) : list (Py unit) :=
  manifest_cells pid ++ image_cells.

Definition run (pid : string) : Py unit := run_cells (cells pid).

Definition notebook : list (Py unit) := cells "IE145082".

End Cells.

End Iiif.


(** * Reading a run *)

(** ** The log *)

Definition is_call (fn : string) (ev : event) : bool :=
  match ev with
  | ECall fn' _ => String.eqb fn fn'
  | _ => false
  end.

Definition call_args (fn : string) (ev : event) : option (list pyval) :=
  match ev with
  | ECall fn' args => if String.eqb fn fn' then Some args else None
  | _ => None
  end.

(** The arguments of the calls of [requests.get], in order. *)
Definition get_requests (l : list event) : list (list pyval) :=
  omap (call_args "requests.get") l.

(** The URLs requested: the first argument of each call, in order. *)
Definition requested_urls (l : list event) : list pyval :=
  omap head (get_requests l).

(** The events [out v] writes. *)
Definition out_events (v : pyval) : list event :=
  match v with
  | PNone => []
  | _ => [EOut v]
  end.

(** ** What a statement leaves alone *)

(** [keeps x m]: [m] does not assign [x]. *)
Definition keeps {A} (x : string) (m : Py A) : Prop :=
  forall k, ns (snd (m k)) !! x = ns k !! x.

(** [adds_gets m n]: [m] calls [requests.get] at most [n] times, and
    takes no call back. *)
Definition adds_gets {A} (m : Py A) (n : nat) : Prop :=
  forall k, exists l,
    get_requests (log (snd (m k))) = get_requests (log k) ++ l /\
    (length l <= n)%nat.

(** [x] read in the state a cell starts from. *)
Definition lookup (k : kernel) (x : string) : Except pyval :=
  match ns k !! x with
  | Some v => ok v
  | None => error (NameError x)
  end.

(** ** The URLs of the IIIF notebook *)

(** The manifest URL for an identifier, and the five image requests for
    an image service, as the cells write them. *)
Definition manifest_url (pid : string) : string :=
  "https://rosetta.slv.vic.gov.au/delivery/iiif/presentation/2.1/" +:+ pid +:+ "/manifest".

Definition notebook_requests (base : string) : list string :=
  [ image_request base "full" "max" "0" "default" "jpg";
    image_request base "full" "pct:10" "0" "default" "jpg";
    image_request base "full" "pct:10" "0" "gray" "jpg";
    image_request base "0,1400,2400,2300" "pct:15" "0" "gray" "jpg";
    image_request base "3400,1400,2700,2700" "pct:15" "0" "gray" "jpg" ].

(** [manifest["sequences"][0]["canvases"]] and
    [canvases[0]["images"][0]["resource"]["service"]["@id"]] *)
Definition canvases_path : list access :=
  [Key "sequences"; Idx 0; Key "canvases"].

Definition image_id_path : list access :=
  [Idx 0; Key "images"; Idx 0; Key "resource"; Key "service"; Key "@id"].

(** ** Reading an Image API request back *)



Record image_params : Type := {
  base : string;
  region : string;
  size : string;
  rotation : string;
  quality : string;
  format : string
}.


Definition request_of (p : image_params) : string :=
  image_request (base p) (region p) (size p) (rotation p) (quality p) (format p).

(** The values of the parameters of the Image API form where a cell
    builds its URL: the base URI is [image_id]; the first image cell
    writes the region, size, rotation and quality out, the cells after it
    take them from the variables of these names; every cell writes the
    format out. *)
Definition image_parameters (str : pyval -> string) (n : nat)
    (m : gmap string pyval) : option image_params :=
  match n with
  | O =>
      id ← m !! "image_id";
      Some {| base := py_format str id; region := "full"; size := "max";
              rotation := "0"; quality := "default"; format := "jpg" |}
  | S _ =>
      id ← m !! "image_id";
      r ← m !! "region";
      s ← m !! "size";
      ro ← m !! "rotation";
      q ← m !! "quality";
      Some {| base := py_format str id; region := py_format str r;
              size := py_format str s; rotation := py_format str ro;
              quality := py_format str q; format := "jpg" |}
  end.












(** ** What the loop over the canvases shows *)

(** The labels the loop prints and, under ["resource"] of an image, where
    it reads the value printed after each. *)
Definition report_fields : list (string * list access) :=
  [ ("Image ID", [Key "service"; Key "@id"]);
    ("Format", [Key "format"]);
    ("Width", [Key "width"]);
    ("Height", [Key "height"]) ].

Definition first_image_path : list access := [Key "images"; Idx 0].

Section Report.

Variable L : library.

(** The lines printed from one image, until a subscript raises. *)
Fixpoint print_fields (image : Except pyval) (fields : list (string * list access))
    : Except unit * list event :=
  match fields with
  | [] => (ok tt, [])
  | (label, path) :: rest =>
      match ebind image (fun img => getpath (obj_getitem L) img (Key "resource" :: path)) with
      | error e => (error e, [])
      | ok v =>
          let (r, evs) := print_fields image rest in
          (r, EStdout (label +:+ " " +:+ py_format (builtin_str L) v) :: evs)
      end
  end.

(** One canvas: its first image, and nothing else of it. *)
Definition canvas_report (c : pyval) : Except unit * list event :=
  print_fields (getpath (obj_getitem L) c first_image_path) report_fields.

Fixpoint loop_report (cs : list pyval) : Except unit * list event :=
  match cs with
  | [] => (ok tt, [])
  | c :: cs' =>
      match canvas_report c with
      | (ok _, evs) => let (r, evs') := loop_report cs' in (r, evs ++ evs')
      | (error e, evs) => (error e, evs)
      end
  end.

Definition same_first_image (c c' : pyval) : Prop :=
  getpath (obj_getitem L) c first_image_path
  = getpath (obj_getitem L) c' first_image_path.

End Report.

(** ** What each cell does, in order *)

(** For each cell, the name lookups, attribute lookups, imports, calls
    and subscripts it makes, each once and in the order of the source,
    each fed to the next, with the assignments and the output made on the
    way.  The first that raises is the end of it: nothing is caught,
    tried again or replaced. *)

(** What is done to the kernel. *)
Inductive effect : Type :=
| Logs (evs : list event)
| Assigns (x : string) (v : pyval).

Definition apply_effect (k : kernel) (eff : effect) : kernel :=
  match eff with
  | Logs evs => {| ns := ns k; log := log k ++ evs |}
  | Assigns x v => {| ns := <[x := v]> (ns k); log := log k |}
  end.

(** The kernel after a list of effects. *)
Definition play (k : kernel) (effs : list effect) : kernel :=
  fold_left apply_effect effs k.

(** An outcome, and what was done up to it. *)
Definition Trace (A : Type) : Type := (Except A * list effect)%type.

(** One step fed to the next; after an exception no step is made. *)
Definition tbind {A B} (t : Trace A) (f : A -> Trace B) : Trace B :=
  match t with
  | (ok a, effs) => let (r, effs') := f a in (r, effs ++ effs')
  | (error e, effs) => (error e, effs)
  end.

(** A lookup, a subscript: an outcome, and nothing done. *)
Definition op {A} (r : Except A) : Trace A := (r, []).

Definition logged (ev : event) : Trace unit := (ok tt, [Logs [ev]]).

(** A call: logged, whatever its outcome. *)
Definition called (fn : string) (args : list pyval) (r : Except pyval)
    : Trace pyval :=
  (r, [Logs [ECall fn args]]).

Definition assigned (x : string) (v : pyval) : Trace unit :=
  (ok tt, [Assigns x v]).

Definition shown (v : pyval) : Trace unit := (ok tt, [Logs (out_events v)]).

(** A cell as its trace has it. *)
Definition played (k : kernel) (t : Trace unit) : Except unit * kernel :=
  (fst t, play k (snd t)).

Section Calls.

Variable L : library.

Notation "'try' x ':=' r 'in' f" := (tbind r (fun x => f))
  (at level 10, x name, r at level 100, f at level 200).

Definition imported (name as_ : string) : Trace pyval :=
  try m := called "import" [PStr name] (import_module L name) in
  try _ := assigned as_ m in
  op (ok m).

Definition called_callee (fn : string) (c : callee) (args : list pyval)
    (kwargs : list (string * pyval)) (real : Except pyval) : Trace pyval :=
  if callable L c
  then called fn (args ++ map snd kwargs) (callee_result L c args kwargs real)
  else op (error TypeError).

Definition called_method (fn : string) (self f : pyval) (args : list pyval)
    : Trace pyval :=
  if callable L (Attribute f)
  then called fn (self :: args) (apply_object L f args [])
  else op (error TypeError).

(** [img = Image.open(requests.get(url, stream=True).raw)] and
    [display(img)] *)
Definition calls_get_image (image requests : Except pyval) (url : string)
    : Trace unit :=
  try image := op image in
  try open := op (module_attr L "PIL.Image" image a_open) in
  try requests := op requests in
  try get := op (module_attr L "requests" requests a_get) in
  try resp := called_callee "requests.get" get [PStr url] [("stream", PBool true)]
                (requests_get L (PStr url) true) in
  try raw := op (Response_raw L resp) in
  try img := called_callee "Image.open" open [raw] [] (Image_open L raw) in
  try _ := assigned "img" img in
  try r := called "display" [img] (display L img) in
  shown r.

Definition image_url_of (id region size rotation quality : pyval) : string :=
  fstring (builtin_str L)
    [ Field id; Lit "/"; Field region; Lit "/"; Field size; Lit "/";
      Field rotation; Lit "/"; Field quality; Lit ".jpg" ].

Definition calls_install : Trace unit :=
  try _ := logged (ECall "system" [PStr " pip install nltk svgling"]) in
  assigned "_exit_code" (PInt (system L " pip install nltk svgling")).

Definition calls_one_download (nltk : pyval) (name : string) : Trace pyval :=
  try f := op (module_attr L "nltk" nltk a_download) in
  called_callee "nltk.download" f [PStr name] [] (nltk_download L (PStr name)).

Definition calls_download : Trace unit :=
  try nltk := imported "nltk" "nltk" in
  try _ := calls_one_download nltk "punkt_tab" in
  try _ := calls_one_download nltk "averaged_perceptron_tagger_eng" in
  try _ := calls_one_download nltk "maxent_ne_chunker_tab" in
  try _ := calls_one_download nltk "words" in
  try r := calls_one_download nltk "tagsets_json" in
  shown r.

Definition calls_about_slv : Trace unit :=
  assigned "about_slv" (PStr Ner.about_slv_text).

Definition calls_tokens (k : kernel) : Trace unit :=
  try nltk := op (lookup k "nltk") in
  try f := op (module_attr L "nltk" nltk a_word_tokenize) in
  try text := op (lookup k "about_slv") in
  try toks := called_callee "nltk.word_tokenize" f [text] []
                (nltk_word_tokenize L text) in
  try _ := assigned "tokens" toks in
  shown toks.

Definition calls_tagged_tokens (k : kernel) : Trace unit :=
  try nltk := op (lookup k "nltk") in
  try f := op (module_attr L "nltk" nltk a_pos_tag) in
  try toks := op (lookup k "tokens") in
  try tagged := called_callee "nltk.pos_tag" f [toks] [] (nltk_pos_tag L toks) in
  try _ := assigned "tagged_tokens" tagged in
  shown tagged.

Definition calls_tagset (pattern : string) (k : kernel) : Trace unit :=
  try nltk := op (lookup k "nltk") in
  try help := op (module_attr L "nltk" nltk a_help) in
  try f := op (callee_attr L help a_upenn_tagset) in
  try r := called_callee "nltk.help.upenn_tagset" f [PStr pattern] []
             (nltk_help_upenn_tagset L (PStr pattern)) in
  shown r.

Definition calls_entities (k : kernel) : Trace unit :=
  try svgling := imported "svgling" "svgling" in
  try nltk := op (lookup k "nltk") in
  try f := op (module_attr L "nltk" nltk a_ne_chunk) in
  try tagged := op (lookup k "tagged_tokens") in
  try ents := called_callee "nltk.ne_chunk" f [tagged] [] (nltk_ne_chunk L tagged) in
  try _ := assigned "entities" ents in
  try draw := op (module_attr L "svgling" svgling a_draw_tree) in
  try d := called_callee "svgling.draw_tree" draw [ents] [("font_size", PInt 10)]
             (svgling_draw_tree L ents (PInt 10)) in
  shown d.

Definition calls_ie_pid (pid : string) : Trace unit :=
  assigned "ie_pid" (PStr pid).

Definition calls_manifest (k : kernel) : Trace unit :=
  try requests := imported "requests" "requests" in
  try pprint := imported "pprint" "pprint" in
  try ie_pid := op (lookup k "ie_pid") in
  try _ := assigned "manifest_url" (PStr (Iiif.manifest_url_of L ie_pid)) in
  try get := op (module_attr L "requests" requests a_get) in
  try resp := called_callee "requests.get" get
                [PStr (Iiif.manifest_url_of L ie_pid)] []
                (requests_get L (PStr (Iiif.manifest_url_of L ie_pid)) false) in
  try _ := assigned "response" resp in
  try json := op (py_getattr L resp a_json) in
  try m := called_method "Response.json" resp json [] in
  try _ := assigned "manifest" m in
  try new := op (module_attr L "pprint" pprint a_PrettyPrinter) in
  try printer := called_callee "pprint.PrettyPrinter" new [] []
                   (pprint_PrettyPrinter L) in
  try _ := assigned "pp" printer in
  try method := op (py_getattr L printer a_pprint) in
  try r := called_method "PrettyPrinter.pprint" printer method [m] in
  shown r.

Definition calls_fields (k : kernel) : Trace unit :=
  try m := op (lookup k "manifest") in
  try a := op (getitem_key (obj_getitem L) m "attribution") in
  try _ := assigned "attribution" a in
  try t := op (getitem_key (obj_getitem L) m "label") in
  try _ := assigned "title" t in
  shown (PStr (fstring (builtin_str L)
                 [ Lit "Copyright:  "; Field a; Lit ". Title: "; Field t ])).

Definition calls_canvases (k : kernel) : Trace unit :=
  try m := op (lookup k "manifest") in
  try cs := op (getpath (obj_getitem L) m canvases_path) in
  try _ := assigned "canvases" cs in
  shown cs.

(** The loop: [canvas] bound to each canvas in turn, and what is
    printed of it. *)
Fixpoint calls_canvas_loop (cs : list pyval) : Trace unit :=
  match cs with
  | [] => op (ok tt)
  | c :: cs' =>
      try _ := assigned "canvas" c in
      try _ := (fst (canvas_report L c), [Logs (snd (canvas_report L c))]) in
      calls_canvas_loop cs'
  end.

Definition calls_loop (k : kernel) : Trace unit :=
  try cs := op (lookup k "canvases") in
  try items := op (iterate (obj_iter L) cs) in
  calls_canvas_loop items.

Definition calls_image_id (k : kernel) : Trace unit :=
  try cs := op (lookup k "canvases") in
  try id := op (getpath (obj_getitem L) cs image_id_path) in
  try _ := assigned "image_id" id in
  shown id.

Definition calls_full (k : kernel) : Trace unit :=
  try image := imported "PIL.Image" "Image" in
  try id := op (lookup k "image_id") in
  let url := fstring (builtin_str L) [Field id; Lit "/full/max/0/default.jpg"] in
  try _ := assigned "image_url" (PStr url) in
  calls_get_image (ok image) (lookup k "requests") url.

Definition calls_size (k : kernel) : Trace unit :=
  try _ := assigned "region" (PStr "full") in
  try _ := assigned "rotation" (PStr "0") in
  try _ := assigned "size" (PStr "pct:10") in
  try _ := assigned "quality" (PStr "default") in
  try id := op (lookup k "image_id") in
  let url := image_url_of id (PStr "full") (PStr "pct:10") (PStr "0") (PStr "default") in
  try _ := assigned "image_url" (PStr url) in
  calls_get_image (lookup k "Image") (lookup k "requests") url.

Definition calls_quality (k : kernel) : Trace unit :=
  try _ := assigned "quality" (PStr "gray") in
  try id := op (lookup k "image_id") in
  try region := op (lookup k "region") in
  try size := op (lookup k "size") in
  try rotation := op (lookup k "rotation") in
  let url := image_url_of id region size rotation (PStr "gray") in
  try _ := assigned "image_url" (PStr url) in
  calls_get_image (lookup k "Image") (lookup k "requests") url.

Definition calls_region_left (k : kernel) : Trace unit :=
  try _ := assigned "region" (PStr "0,1400,2400,2300") in
  try _ := assigned "size" (PStr "pct:15") in
  try id := op (lookup k "image_id") in
  try rotation := op (lookup k "rotation") in
  try quality := op (lookup k "quality") in
  let url := image_url_of id (PStr "0,1400,2400,2300") (PStr "pct:15")
               rotation quality in
  try _ := assigned "image_url" (PStr url) in
  calls_get_image (lookup k "Image") (lookup k "requests") url.

Definition calls_region_right (k : kernel) : Trace unit :=
  try _ := assigned "region" (PStr "3400,1400,2700,2700") in
  try id := op (lookup k "image_id") in
  try size := op (lookup k "size") in
  try rotation := op (lookup k "rotation") in
  try quality := op (lookup k "quality") in
  let url := image_url_of id (PStr "3400,1400,2700,2700") size rotation quality in
  try _ := assigned "image_url" (PStr url) in
  calls_get_image (lookup k "Image") (lookup k "requests") url.

End Calls.

(** ** Trees of tagged tokens *)

(** The tagged tokens of a tree, left to right. *)
Fixpoint leaves (v : pyval) : list pyval :=
  match v with
  | PTree _ children => flat_map leaves children
  | _ => [v]
  end.

(** The subtrees under the root: each a labelled span of tagged tokens. *)
Definition entity_spans (t : pyval) : list (string * list pyval) :=
  match t with
  | PTree _ children =>
      omap (fun c => match c with
                     | PTree label span => Some (label, span)
                     | _ => None
                     end) children
  | _ => []
  end.

Definition is_space (a : ascii) : bool :=
  Ascii.eqb a " " || Ascii.eqb a "010".

Fixpoint without_spaces (s : string) : string :=
  match s with
  | EmptyString => EmptyString
  | String a s' =>
      if is_space a then without_spaces s' else String a (without_spaces s')
  end.

(** ** The notebooks' saved outputs and documented manifest *)

Module Saved.

(** [Out[4]] of the NER notebook. *)
Definition tokens : list string :=
  [ "Located"; "in"; "Melbourne"; ","; "it"; "was"; "established"; "in";
    "1854"; "as"; "the"; "Melbourne"; "Public"; "Library"; ","; "making";
    "it"; "Australia"; "'s"; "oldest"; "public"; "library"; "and"; "one";
    "of"; "the"; "first"; "free"; "libraries"; "in"; "the"; "world"; "." ].

(** [Out[5]] of the NER notebook. *)
Definition tagged_tokens : list (string * string) :=
  [ ("Located", "VBN"); ("in", "IN"); ("Melbourne", "NNP"); (",", ",");
    ("it", "PRP"); ("was", "VBD"); ("established", "VBN"); ("in", "IN");
    ("1854", "CD"); ("as", "IN"); ("the", "DT"); ("Melbourne", "NNP");
    ("Public", "NNP"); ("Library", "NNP"); (",", ","); ("making", "VBG");
    ("it", "PRP"); ("Australia", "NNP"); ("'s", "POS"); ("oldest", "JJS");
    ("public", "JJ"); ("library", "NN"); ("and", "CC"); ("one", "CD");
    ("of", "IN"); ("the", "DT"); ("first", "JJ"); ("free", "JJ");
    ("libraries", "NNS"); ("in", "IN"); ("the", "DT"); ("world", "NN");
    (".", ".") ].

Definition leaf (word tag : string) : pyval := PTuple [PStr word; PStr tag].

(** The tree of [Out[8]] of the NER notebook, inside its [TreeLayout]. *)
Definition entities : pyval :=
  PTree "S"
    [ leaf "Located" "VBN"; leaf "in" "IN";
      PTree "GPE" [leaf "Melbourne" "NNP"];
      leaf "," ","; leaf "it" "PRP"; leaf "was" "VBD";
      leaf "established" "VBN"; leaf "in" "IN"; leaf "1854" "CD";
      leaf "as" "IN"; leaf "the" "DT";
      PTree "ORGANIZATION"
        [leaf "Melbourne" "NNP"; leaf "Public" "NNP"; leaf "Library" "NNP"];
      leaf "," ","; leaf "making" "VBG"; leaf "it" "PRP";
      PTree "GPE" [leaf "Australia" "NNP"];
      leaf "'s" "POS"; leaf "oldest" "JJS"; leaf "public" "JJ";
      leaf "library" "NN"; leaf "and" "CC"; leaf "one" "CD"; leaf "of" "IN";
      leaf "the" "DT"; leaf "first" "JJ"; leaf "free" "JJ";
      leaf "libraries" "NNS"; leaf "in" "IN"; leaf "the" "DT";
      leaf "world" "NN"; leaf "." "." ].

(** The manifest of [IE145082], by the fields the IIIF notebook quotes
    from it. *)
Definition image_service_id : string :=
  "https://rosetta.slv.vic.gov.au:2083/iiif/2/IE145082:FL21000768.jpg".

Definition image (service_id : string) : pyval :=
  PDict [ ("resource",
           PDict [ ("format", PStr "image/jpeg");
                   ("service", PDict [("@id", PStr service_id)]);
                   ("height", PInt 5257);
                   ("width", PInt 7000) ]) ].

Definition manifest : pyval :=
  PDict [ ("attribution", PStr "This work is out of copyright");
          ("description", PStr "");
          ("label", PStr "[Berkshire pig with points marked on image]");
          ("sequences",
           PList [ PDict [ ("canvases",
                            PList [ PDict [ ("images",
                                             PList [image image_service_id]) ] ]) ] ]) ].

(** The objects of the libraries in a run: the modules, each its own
    object, a response and its raw stream, an image, a printer, and the
    bound methods of the response and of the printer. *)
Definition module (name : string) : pyval :=
  PObj "module"
    (if String.eqb name "nltk" then 10
     else if String.eqb name "svgling" then 11
     else if String.eqb name "requests" then 12
     else if String.eqb name "pprint" then 13
     else if String.eqb name "PIL.Image" then 14
     else 0)%N.

Definition response : pyval := PObj "Response" 2.

Definition getattr (v : pyval) (name : string) : Except pyval :=
  match v with
  | PObj cls h =>
      if String.eqb cls "Response" && String.eqb name "json"
      then ok (PObj "method" 20)
      else if String.eqb cls "Response" && String.eqb name "raw"
      then ok (PObj "HTTPResponse" 3)
      else if String.eqb cls "PrettyPrinter" && String.eqb name "pprint"
      then ok (PObj "method" 21)
      else error (AttributeError name)
  | PDict _ =>
      if String.eqb name "get" then ok (PObj "builtin_function_or_method" 22)
      else error (AttributeError name)
  | _ => error (AttributeError name)
  end.

(** Libraries that answer as the saved outputs and the quoted manifest
    show, but for the three calls given. *)
Definition make
    (get : pyval -> bool -> Except pyval)
    (json : pyval -> Except pyval)
    (pos_tag : pyval -> Except pyval) : library := {|
  system := fun _ => 0;
  import_module := fun name => ok (module name);
  nltk_download := fun _ => ok (PBool true);
  nltk_word_tokenize := fun _ => ok (PList (map PStr tokens));
  nltk_pos_tag := pos_tag;
  nltk_ne_chunk := fun _ => ok entities;
  nltk_help_upenn_tagset := fun _ => ok PNone;
  svgling_draw_tree := fun _ _ => ok (PObj "TreeLayout" 1);
  requests_get := get;
  Image_open := fun _ => ok (PObj "JpegImageFile" 4);
  pprint_PrettyPrinter := ok (PObj "PrettyPrinter" 5);
  display := fun _ => ok PNone;
  builtin_str := fun v => match v with PInt n => pretty n | _ => "" end;
  obj_getitem := fun _ _ _ => error TypeError;
  obj_iter := fun _ _ => error TypeError;
  obj_getattr := getattr;
  obj_callable := fun f =>
    match f with
    | PObj _ h => (h =? 20)%N || (h =? 21)%N || (h =? 22)%N
    | _ => false
    end;
  obj_call := fun f args kwargs =>
    match f, kwargs with
    | PObj _ 20%N, [] => json response
    | PObj _ 21%N, [] => ok PNone
    | PObj _ 22%N, [] => ok PNone
    | _, _ => error TypeError
    end
|}.

(** Every call returning. *)
Definition lib : library :=
  make (fun _ _ => ok response)
       (fun _ => ok manifest)
       (fun _ => ok (PList (map (fun wt => leaf (fst wt) (snd wt)) tagged_tokens))).

(** No network. *)
Definition offline : library :=
  make (fun _ _ => error (Raised "ConnectionError" "Max retries exceeded"))
       (fun _ => ok manifest)
       (fun _ => ok (PList (map (fun wt => leaf (fst wt) (snd wt)) tagged_tokens))).

(** The runs of the two notebooks with [lib], and states on the way. *)
Definition ner_run : kernel := snd (Ner.run lib fresh_kernel).

Definition iiif_run : kernel := snd (Iiif.run lib "IE145082" fresh_kernel).

Definition after_manifest_cells : kernel :=
  snd (run_cells (Iiif.manifest_cells lib "IE145082") fresh_kernel).

Definition after_cell_full : kernel :=
  snd (Iiif.cell_full lib after_manifest_cells).

Definition after_cell_size : kernel :=
  snd (Iiif.cell_size lib after_cell_full).

(** Two lists of canvases with the same first images: one canvas with a
    second image, one with a label. *)
Definition canvases_two_images : list pyval :=
  [ PDict [ ("images",
             PList [ image image_service_id;
                     image "https://rosetta.slv.vic.gov.au:2083/iiif/2/IE145082:FL21000769.jpg" ]) ] ].

Definition canvases_one_image : list pyval :=
  [ PDict [ ("images", PList [ image image_service_id ]);
            ("label", PStr "page 1") ] ].

Definition kernel_two_images : kernel :=
  {| ns := {[ "canvases" := PList canvases_two_images ]}; log := [] |}.

End Saved.

(** ** More of the log *)

(** The names of the library functions called, in order. *)
Definition call_names (l : list event) : list string :=
  omap (fun ev => match ev with ECall fn _ => Some fn | _ => None end) l.

(** The lines [print] wrote, in order. *)
Definition stdout_lines (l : list event) : list string :=
  omap (fun ev => match ev with EStdout s => Some s | _ => None end) l.

(** ** Manifests and libraries off the documented shape *)

Module Cases.

(** A manifest whose sequence has no canvas. *)
Definition manifest_no_canvases : pyval :=
  PDict [ ("attribution", PStr "This work is out of copyright");
          ("description", PStr "");
          ("label", PStr "[Berkshire pig with points marked on image]");
          ("sequences", PList [ PDict [ ("canvases", PList []) ] ]) ].

(** A manifest with no ["label"]. *)
Definition manifest_no_label : pyval :=
  PDict [ ("attribution", PStr "This work is out of copyright");
          ("description", PStr "") ].

(** A manifest whose canvases are an object, not an array. *)
Definition manifest_canvases_object : pyval :=
  PDict [ ("attribution", PStr "This work is out of copyright");
          ("label", PStr "[Berkshire pig with points marked on image]");
          ("sequences",
           PList [ PDict [ ("canvases",
                            PDict [ ("first", PDict [("images", PList [])]) ]) ] ]) ].

Definition lib_with_manifest (m : pyval) : library :=
  Saved.make (fun _ _ => ok Saved.response) (fun _ => ok m)
    (nltk_pos_tag Saved.lib).

(** The server answers with a body that is not JSON. *)
Definition lib_bad_json : library :=
  Saved.make (fun _ _ => ok Saved.response)
    (fun _ => error (Raised "JSONDecodeError" "Expecting value"))
    (nltk_pos_tag Saved.lib).

(** The tagger's data is not there. *)
Definition lib_no_tagger : library :=
  Saved.make (fun _ _ => ok Saved.response) (fun _ => ok Saved.manifest)
    (fun _ => error (Raised "LookupError"
                       "Resource averaged_perceptron_tagger_eng not found.")).


(** A kernel that holds one variable. *)
Definition kernel_with (x : string) (v : pyval) : kernel :=
  {| ns := {[ x := v ]}; log := [] |}.

(** The state after the first four cells of the IIIF notebook. *)
Definition after_canvases_cell (L : library) : kernel :=
  snd (run_cells [ Iiif.cell_ie_pid "IE145082"; Iiif.cell_manifest L;
                   Iiif.cell_fields L; Iiif.cell_canvases L ] fresh_kernel).

(** A kernel left by an earlier run, with the identifier rebound. *)
Definition rerun_kernel : kernel :=
  snd (Iiif.cell_ie_pid "IE000000" Saved.iiif_run).

End Cases.


(** * Properties *)

(** ** The monad: running a statement forwards and backwards *)

Lemma ebind_error {A B} (r : Except A) (f : A -> Except B) (e : exn) :
  ebind r f = error e <-> r = error e \/ exists a, r = ok a /\ f a = error e.
Proof.
  destruct r as [a|e']; simpl; split.
  - intros H. right. exists a. auto.
  - intros [H|(a' & H & H')]; [discriminate | congruence].
  - intros H. left. congruence.
  - intros [H|(a' & H & H')]; [congruence | discriminate].
Qed.

Lemma bind_ok_inv {A B} (m : Py A) (f : A -> Py B) k b k' :
  bind m f k = (ok b, k') ->
  exists a k1, m k = (ok a, k1) /\ f a k1 = (ok b, k').
Proof.
  unfold bind. destruct (m k) as [[a|e] k1]; intros H.
  - exists a, k1. auto.
  - discriminate.
Qed.

Lemma bind_ok {A B} (m : Py A) (f : A -> Py B) k a k1 :
  m k = (ok a, k1) -> bind m f k = f a k1.
Proof. unfold bind. intros ->. reflexivity. Qed.

Lemma bind_error {A B} (m : Py A) (f : A -> Py B) k e k1 :
  m k = (error e, k1) -> bind m f k = (error e, k1).
Proof. unfold bind. intros ->. reflexivity. Qed.

Lemma get_var_ok_inv x k v k' :
  get_var x k = (ok v, k') -> ns k !! x = Some v /\ k' = k.
Proof.
  unfold get_var. destruct (ns k !! x); intros H; inversion H; auto.
Qed.

Lemma set_var_ok_inv x v k u k' :
  set_var x v k = (ok u, k') -> k' = {| ns := <[x := v]> (ns k); log := log k |}.
Proof. unfold set_var. intros H. inversion H. reflexivity. Qed.

Lemma emit_ok_inv ev k u k' :
  emit ev k = (ok u, k') -> k' = {| ns := ns k; log := log k ++ [ev] |}.
Proof. unfold emit. intros H. inversion H. reflexivity. Qed.

Lemma lift_ok_inv {A} (r : Except A) k a k' :
  lift r k = (ok a, k') -> r = ok a /\ k' = k.
Proof. unfold lift. intros H. inversion H. auto. Qed.

Lemma ret_ok_inv {A} (a : A) k b k' :
  ret a k = (ok b, k') -> b = a /\ k' = k.
Proof. unfold ret. intros H. inversion H. auto. Qed.

Lemma out_run v k :
  out v k = (ok tt, {| ns := ns k; log := log k ++ out_events v |}).
Proof.
  destruct k as [n l].
  destruct v; unfold out, emit, ret; simpl; rewrite ?app_nil_r; reflexivity.
Qed.

Lemma out_ok_inv v k u k' :
  out v k = (ok u, k') -> k' = {| ns := ns k; log := log k ++ out_events v |}.
Proof. rewrite out_run. intros H. inversion H. reflexivity. Qed.

(** Equality of values, as [pyval_eqb] decides it. *)
Lemma pyval_eqb_refl (v : pyval) : pyval_eqb v v = true.
Proof.
  revert v. fix pyval_eqb_refl 1. intros v.
  destruct v as [|b|n|n|s|l|l|d|lbl l|c h]; cbn [pyval_eqb].
  - reflexivity.
  - apply Bool.eqb_reflx.
  - apply Z.eqb_refl.
  - apply Z.eqb_refl.
  - apply String.eqb_refl.
  - induction l as [|u l IH]; [reflexivity|].
    rewrite (pyval_eqb_refl u). exact IH.
  - induction l as [|u l IH]; [reflexivity|].
    rewrite (pyval_eqb_refl u). exact IH.
  - induction d as [|[j u] d IH]; [reflexivity|].
    rewrite String.eqb_refl, (pyval_eqb_refl u). exact IH.
  - rewrite String.eqb_refl. cbn [andb].
    induction l as [|u l IH]; [reflexivity|].
    rewrite (pyval_eqb_refl u). exact IH.
  - rewrite String.eqb_refl, N.eqb_refl. reflexivity.
Qed.

Lemma pyval_eqb_eq (a b : pyval) : pyval_eqb a b = true -> a = b.
Proof.
  revert a b. fix pyval_eqb_eq 1. intros a b.
  destruct a as [|x|x|x|x|x|x|x|l x|c h], b as [|y|y|y|y|y|y|y|m y|d i];
    cbn [pyval_eqb]; try discriminate; intros H.
  - reflexivity.
  - apply Bool.eqb_prop in H. congruence.
  - apply Z.eqb_eq in H. congruence.
  - apply Z.eqb_eq in H. congruence.
  - apply String.eqb_eq in H. congruence.
  - f_equal. revert y H.
    induction x as [|u x IH]; intros [|v y] H; try discriminate; [reflexivity|].
    apply andb_prop in H. destruct H as [H1 H2].
    rewrite (pyval_eqb_eq u v H1), (IH y H2). reflexivity.
  - f_equal. revert y H.
    induction x as [|u x IH]; intros [|v y] H; try discriminate; [reflexivity|].
    apply andb_prop in H. destruct H as [H1 H2].
    rewrite (pyval_eqb_eq u v H1), (IH y H2). reflexivity.
  - f_equal. revert y H.
    induction x as [|[j u] x IH]; intros [|[k v] y] H; try discriminate;
      [reflexivity|].
    apply andb_prop in H. destruct H as [H1 H2].
    apply andb_prop in H1. destruct H1 as [H0 H1].
    apply String.eqb_eq in H0.
    rewrite H0, (pyval_eqb_eq u v H1), (IH y H2). reflexivity.
  - apply andb_prop in H. destruct H as [H0 H].
    apply String.eqb_eq in H0. rewrite H0. f_equal. revert y H.
    induction x as [|u x IH]; intros [|v y] H; try discriminate; [reflexivity|].
    apply andb_prop in H. destruct H as [H1 H2].
    rewrite (pyval_eqb_eq u v H1), (IH y H2). reflexivity.
  - apply andb_prop in H. destruct H as [H1 H2].
    apply String.eqb_eq in H1. apply N.eqb_eq in H2. congruence.
Qed.

(** The variable of a module, as the import left it, gives the
    library's function. *)
Lemma module_attr_imported L name m a :
  import_module L name = ok m -> module_attr L name m a = ok LibraryFunction.
Proof.
  intros H. unfold module_attr, is_module. rewrite H, pyval_eqb_refl. reflexivity.
Qed.

(** On any other value, it is the attribute of that value. *)
Lemma module_attr_other L name v a :
  is_module L name v = false ->
  module_attr L name v a = ebind (py_getattr L v a) (fun f => ok (Attribute f)).
Proof. intros H. unfold module_attr. rewrite H. reflexivity. Qed.

Lemma is_module_imported L name v :
  is_module L name v = true <-> import_module L name = ok v.
Proof.
  unfold is_module. destruct (import_module L name) as [m|e]; split; intros H.
  - apply pyval_eqb_eq in H. congruence.
  - injection H as ->. apply pyval_eqb_refl.
  - discriminate.
  - discriminate.
Qed.

Lemma not_callable_apply L f args kwargs :
  callable L (Attribute f) = false -> apply_object L f args kwargs = error TypeError.
Proof. unfold apply_object. cbn [callable]. intros ->. reflexivity. Qed.

Lemma call_callee_run L fn c args kwargs real k :
  call_callee L fn c args kwargs real k
  = if callable L c
    then (callee_result L c args kwargs real,
          {| ns := ns k; log := log k ++ [ECall fn (args ++ map snd kwargs)] |})
    else (error TypeError, k).
Proof. unfold call_callee. destruct (callable L c); reflexivity. Qed.

Lemma call_method_run L fn self f args k :
  call_method L fn self f args k
  = if callable L (Attribute f)
    then (apply_object L f args [],
          {| ns := ns k; log := log k ++ [ECall fn (self :: args)] |})
    else (error TypeError, k).
Proof. unfold call_method. destruct (callable L (Attribute f)); reflexivity. Qed.

Lemma call_callee_ok_inv L fn c args kwargs real k r k' :
  call_callee L fn c args kwargs real k = (ok r, k') ->
  callable L c = true /\
  callee_result L c args kwargs real = ok r /\
  k' = {| ns := ns k; log := log k ++ [ECall fn (args ++ map snd kwargs)] |}.
Proof.
  rewrite call_callee_run. destruct (callable L c); intros H; inversion H; auto.
Qed.

Lemma call_method_ok_inv L fn self f args k r k' :
  call_method L fn self f args k = (ok r, k') ->
  callable L (Attribute f) = true /\
  apply_object L f args [] = ok r /\
  k' = {| ns := ns k; log := log k ++ [ECall fn (self :: args)] |}.
Proof.
  rewrite call_method_run. destruct (callable L (Attribute f)); intros H;
    inversion H; auto.
Qed.

(** [resp.json()] from the attribute and the call of it. *)
Lemma Response_json_from L resp f r :
  py_getattr L resp a_json = ok f -> apply_object L f [] [] = r ->
  Response_json L resp = r.
Proof. intros H <-. unfold Response_json. rewrite H. reflexivity. Qed.

(** Lookups in a namespace after assignments. *)
Ltac ns_simpl :=
  repeat (rewrite lookup_insert_eq
          || (rewrite lookup_insert_ne by (intro; discriminate))).

Ltac ns_simpl_in H :=
  repeat (rewrite lookup_insert_eq in H
          || (rewrite lookup_insert_ne in H by (intro; discriminate))).

(** Inversion of a run that completed, statement by statement. *)
Ltac state_subst E :=
  lazymatch type of E with
  | ?x = _ => first [ subst x | rewrite E in *; clear E | clear E ]
  end;
  cbn [ns log] in *.

Ltac py_inv H :=
  lazymatch type of H with
  | bind _ _ _ = (ok _, _) =>
      let a := fresh "a" in
      let k1 := fresh "k" in
      let H1 := fresh "R" in
      let H2 := fresh "R" in
      apply bind_ok_inv in H; destruct H as (a & k1 & H1 & H2);
      py_inv H1; py_inv H2
  | get_var _ _ = (ok _, _) =>
      apply get_var_ok_inv in H; let E := fresh "E" in destruct H as [H E];
      state_subst E; ns_simpl_in H;
      try lazymatch type of H with
          | Some _ = Some ?v => injection H as H; try subst v
          end
  | set_var _ _ _ = (ok _, _) =>
      apply set_var_ok_inv in H; state_subst H
  | emit _ _ = (ok _, _) =>
      apply emit_ok_inv in H; state_subst H
  | out _ _ = (ok _, _) =>
      apply out_ok_inv in H; state_subst H
  | lift _ _ = (ok _, _) =>
      apply lift_ok_inv in H; let E := fresh "E" in destruct H as [H E];
      state_subst E;
      try (rewrite module_attr_imported in H by eassumption);
      cbn [callee_attr] in H;
      try lazymatch type of H with
          | ok LibraryFunction = ok ?c => injection H as H; subst c
          end
  | call_callee _ _ _ _ _ _ _ = (ok _, _) =>
      apply call_callee_ok_inv in H;
      let C := fresh "C" in
      let E := fresh "E" in
      destruct H as (C & H & E); cbn [app map snd] in E; state_subst E;
      cbn [callee_result app map snd] in H
  | call_method _ _ _ _ _ _ = (ok _, _) =>
      apply call_method_ok_inv in H;
      let C := fresh "C" in
      let E := fresh "E" in
      destruct H as (C & H & E); state_subst E
  | ret _ _ = (ok _, _) =>
      apply ret_ok_inv in H; let E := fresh "E" in destruct H as [H E];
      state_subst E
  | _ => idtac
  end.

Lemma run_cells_app (a b : list (Py unit)) k k' :
  run_cells (a ++ b) k = (ok tt, k') ->
  exists k1, run_cells a k = (ok tt, k1) /\ run_cells b k1 = (ok tt, k').
Proof.
  revert k. induction a as [|c a IH]; intros k H; simpl in *.
  - exists k. auto.
  - apply bind_ok_inv in H. destruct H as (u & k0 & Hc & Hrest).
    destruct (IH _ Hrest) as (k1 & Ha & Hb).
    exists k1. split; [|exact Hb].
    rewrite (bind_ok _ _ _ _ _ Hc). exact Ha.
Qed.

(** The first exception ends the run: the cells after it are not run,
    and the kernel stays as the failing cell left it. *)
Lemma run_cells_halts (pre post : list (Py unit)) (c : Py unit) k k1 k2 e :
  run_cells pre k = (ok tt, k1) ->
  c k1 = (error e, k2) ->
  run_cells (pre ++ c :: post) k = (error e, k2).
Proof.
  revert k. induction pre as [|c0 pre IH]; intros k Hpre Hc; simpl in *.
  - unfold ret in Hpre. inversion Hpre; subst.
    apply bind_error. exact Hc.
  - apply bind_ok_inv in Hpre. destruct Hpre as (u & k0 & Hc0 & Hrest).
    rewrite (bind_ok _ _ _ _ _ Hc0). apply IH; assumption.
Qed.

(** ** What a statement leaves alone *)

Lemma keeps_ret {A} x (a : A) : keeps x (ret a).
Proof. intros k. reflexivity. Qed.

Lemma keeps_lift {A} x (r : Except A) : keeps x (lift r).
Proof. intros k. reflexivity. Qed.

Lemma keeps_emit x ev : keeps x (emit ev).
Proof. intros k. reflexivity. Qed.

Lemma keeps_get_var x y : keeps x (get_var y).
Proof. intros k. unfold get_var. destruct (ns k !! y); reflexivity. Qed.

Lemma keeps_set_var x y v : x <> y -> keeps x (set_var y v).
Proof. intros Hne k. simpl. apply lookup_insert_ne. congruence. Qed.

Lemma keeps_out x v : keeps x (out v).
Proof. intros k. rewrite out_run. reflexivity. Qed.

Lemma keeps_call_callee x L fn c args kwargs real :
  keeps x (call_callee L fn c args kwargs real).
Proof. intros k. rewrite call_callee_run. destruct (callable L c); reflexivity. Qed.

Lemma keeps_call_method x L fn self f args :
  keeps x (call_method L fn self f args).
Proof.
  intros k. rewrite call_method_run. destruct (callable L (Attribute f)); reflexivity.
Qed.

Lemma keeps_bind {A B} x (m : Py A) (f : A -> Py B) :
  keeps x m -> (forall a, keeps x (f a)) -> keeps x (bind m f).
Proof.
  intros Hm Hf k. unfold bind. specialize (Hm k).
  destruct (m k) as [[a|e] k1]; simpl in *.
  - rewrite Hf. exact Hm.
  - exact Hm.
Qed.

Lemma keeps_for_each x y xs body :
  x <> y -> keeps x body -> keeps x (for_each y xs body).
Proof.
  intros Hne Hb. induction xs as [|v xs IH]; simpl.
  - apply keeps_ret.
  - apply keeps_bind; [apply keeps_set_var; exact Hne|].
    intros _. apply keeps_bind; [exact Hb|]. intros _. exact IH.
Qed.

Lemma get_requests_app l1 l2 :
  get_requests (l1 ++ l2) = get_requests l1 ++ get_requests l2.
Proof. unfold get_requests. apply omap_app. Qed.

Lemma adds_gets_le {A} (m : Py A) n n' :
  (n <= n')%nat -> adds_gets m n -> adds_gets m n'.
Proof.
  intros Hle H k. destruct (H k) as (l & E & Hl). exists l. split; [exact E | lia].
Qed.

Lemma adds_gets_same {A} (m : Py A) :
  (forall k, log (snd (m k)) = log k) -> adds_gets m 0.
Proof.
  intros H k. exists []. rewrite H, app_nil_r. split; [reflexivity | simpl; lia].
Qed.

Lemma adds_gets_ret {A} (a : A) : adds_gets (ret a) 0.
Proof. apply adds_gets_same. reflexivity. Qed.

Lemma adds_gets_lift {A} (r : Except A) : adds_gets (lift r) 0.
Proof. apply adds_gets_same. reflexivity. Qed.

Lemma adds_gets_set_var x v : adds_gets (set_var x v) 0.
Proof. apply adds_gets_same. reflexivity. Qed.

Lemma adds_gets_get_var x : adds_gets (get_var x) 0.
Proof.
  apply adds_gets_same. intros k. unfold get_var.
  destruct (ns k !! x); reflexivity.
Qed.

Lemma adds_gets_emit ev :
  adds_gets (emit ev) (if is_call "requests.get" ev then 1 else 0).
Proof.
  intros k. exists (get_requests [ev]). simpl. rewrite get_requests_app.
  split; [reflexivity|].
  destruct ev as [fn args| |]; try (simpl; lia).
  unfold get_requests, is_call, call_args, omap, list_omap.
  destruct (String.eqb "requests.get" fn); simpl; lia.
Qed.

Lemma adds_gets_call fn args :
  adds_gets (emit (ECall fn args)) (if String.eqb "requests.get" fn then 1 else 0).
Proof. apply (adds_gets_emit (ECall fn args)). Qed.

Lemma adds_gets_stdout line : adds_gets (emit (EStdout line)) 0.
Proof. apply (adds_gets_emit (EStdout line)). Qed.

Lemma adds_gets_out v : adds_gets (out v) 0.
Proof.
  intros k. rewrite out_run. simpl. exists []. rewrite get_requests_app.
  split; [|simpl; lia]. destruct v; reflexivity.
Qed.

Lemma adds_gets_call_callee L fn c args kwargs real :
  adds_gets (call_callee L fn c args kwargs real)
    (if String.eqb "requests.get" fn then 1 else 0).
Proof.
  intros k. rewrite call_callee_run. destruct (callable L c); cbn [snd log].
  - exists (get_requests [ECall fn (args ++ map snd kwargs)]).
    rewrite get_requests_app. split; [reflexivity|].
    unfold get_requests, call_args, omap, list_omap.
    destruct (String.eqb "requests.get" fn); simpl; lia.
  - exists []. rewrite app_nil_r. split; [reflexivity|].
    destruct (String.eqb "requests.get" fn); simpl; lia.
Qed.

Lemma adds_gets_call_method L fn self f args :
  adds_gets (call_method L fn self f args)
    (if String.eqb "requests.get" fn then 1 else 0).
Proof.
  intros k. rewrite call_method_run. destruct (callable L (Attribute f)); cbn [snd log].
  - exists (get_requests [ECall fn (self :: args)]).
    rewrite get_requests_app. split; [reflexivity|].
    unfold get_requests, call_args, omap, list_omap.
    destruct (String.eqb "requests.get" fn); simpl; lia.
  - exists []. rewrite app_nil_r. split; [reflexivity|].
    destruct (String.eqb "requests.get" fn); simpl; lia.
Qed.

Lemma adds_gets_bind {A B} (m : Py A) (f : A -> Py B) n1 n2 :
  adds_gets m n1 -> (forall a, adds_gets (f a) n2) -> adds_gets (bind m f) (n1 + n2).
Proof.
  intros Hm Hf k. unfold bind. destruct (Hm k) as (l1 & E1 & Hl1).
  destruct (m k) as [[a|e] k1]; simpl in *.
  - destruct (Hf a k1) as (l2 & E2 & Hl2).
    exists (l1 ++ l2). rewrite E2, E1, app_assoc, length_app. split; [reflexivity | lia].
  - exists l1. split; [exact E1 | lia].
Qed.

Lemma adds_gets_for_each x xs body n :
  adds_gets body n -> (n <= 0)%nat -> adds_gets (for_each x xs body) 0.
Proof.
  intros Hb Hn. assert (n = 0)%nat as -> by lia.
  induction xs as [|v xs IH]; simpl.
  - apply adds_gets_ret.
  - apply (adds_gets_bind _ _ 0 0); [apply adds_gets_set_var|].
    intros _. apply (adds_gets_bind _ _ 0 0); [exact Hb|]. intros _. exact IH.
Qed.

Lemma get_requests_out_events v : get_requests (out_events v) = [].
Proof. destruct v; reflexivity. Qed.

(** The requests of a log written out as appended events. *)
Ltac requests_simpl :=
  rewrite ?get_requests_app, ?get_requests_out_events;
  cbn [get_requests omap list_omap call_args String.eqb Ascii.eqb Bool.eqb];
  rewrite ?app_nil_r, <- ?app_assoc; cbn [app].

(** Subscript and call results already known. *)
Ltac use_results :=
  simpl;
  repeat match goal with
         | H : ?x = ok _ |- context [?x] => rewrite H; simpl
         end;
  try reflexivity.

(** Two readings of one variable in one state give one value. *)
Ltac same_lookups :=
  repeat match goal with
         | H1 : ?l = Some _, H2 : ?l = Some _ |- _ =>
             rewrite H1 in H2; simplify_eq
         end.

(** [keeps], statement by statement. *)
Ltac frame :=
  repeat first
    [ apply keeps_bind; [|intros ?]
    | apply keeps_ret | apply keeps_lift | apply keeps_emit
    | apply keeps_get_var | apply keeps_out
    | apply keeps_call_callee | apply keeps_call_method
    | apply keeps_set_var; first [assumption | discriminate]
    | apply keeps_for_each; [first [assumption | discriminate]|] ].

(** [adds_gets], statement by statement: the bound of a sequence is the
    sum of the bounds. *)
Ltac count_gets :=
  eapply adds_gets_le;
  [| repeat first
       [ eapply adds_gets_bind; [|intros ?]
       | apply adds_gets_ret | apply adds_gets_lift | apply adds_gets_set_var
       | apply adds_gets_get_var | apply adds_gets_out
       | apply adds_gets_call_callee | apply adds_gets_call_method
       | apply adds_gets_call | apply adds_gets_stdout
       | eapply adds_gets_for_each ] ];
  simpl; lia.

(** Running a statement forwards. *)
Lemma bind_bind {A B C} (m : Py A) (f : A -> Py B) (g : B -> Py C) k :
  bind (bind m f) g k = bind m (fun a => bind (f a) g) k.
Proof. unfold bind. destruct (m k) as [[a|e] k1]; reflexivity. Qed.

Lemma bind_ret {A B} (a : A) (f : A -> Py B) k : bind (ret a) f k = f a k.
Proof. reflexivity. Qed.

Lemma bind_set_var {B} x v (f : unit -> Py B) k :
  bind (set_var x v) f k = f tt {| ns := <[x := v]> (ns k); log := log k |}.
Proof. reflexivity. Qed.

Lemma bind_emit {B} ev (f : unit -> Py B) k :
  bind (emit ev) f k = f tt {| ns := ns k; log := log k ++ [ev] |}.
Proof. reflexivity. Qed.

Lemma bind_out {B} v (f : unit -> Py B) k :
  bind (out v) f k = f tt {| ns := ns k; log := log k ++ out_events v |}.
Proof. unfold bind. rewrite out_run. reflexivity. Qed.

Lemma bind_lift {A B} (r : Except A) (f : A -> Py B) k :
  bind (lift r) f k = match r with ok a => f a k | error e => (error e, k) end.
Proof. unfold bind, lift. destruct r; reflexivity. Qed.

Lemma bind_get_var {B} x (f : pyval -> Py B) k :
  bind (get_var x) f k
  = match ns k !! x with Some v => f v k | None => (error (NameError x), k) end.
Proof. unfold bind, get_var. destruct (ns k !! x); reflexivity. Qed.

Lemma bind_call_callee {B} L fn c args kwargs real (f : pyval -> Py B) k :
  bind (call_callee L fn c args kwargs real) f k
  = if callable L c
    then match callee_result L c args kwargs real with
         | ok a => f a {| ns := ns k;
                          log := log k ++ [ECall fn (args ++ map snd kwargs)] |}
         | error e => (error e,
                       {| ns := ns k;
                          log := log k ++ [ECall fn (args ++ map snd kwargs)] |})
         end
    else (error TypeError, k).
Proof.
  unfold bind. rewrite call_callee_run.
  destruct (callable L c); [|reflexivity].
  destruct (callee_result L c args kwargs real); reflexivity.
Qed.

Lemma bind_call_method {B} L fn self m args (f : pyval -> Py B) k :
  bind (call_method L fn self m args) f k
  = if callable L (Attribute m)
    then match apply_object L m args [] with
         | ok a => f a {| ns := ns k; log := log k ++ [ECall fn (self :: args)] |}
         | error e => (error e,
                       {| ns := ns k; log := log k ++ [ECall fn (self :: args)] |})
         end
    else (error TypeError, k).
Proof.
  unfold bind. rewrite call_method_run.
  destruct (callable L (Attribute m)); [|reflexivity].
  destruct (apply_object L m args []); reflexivity.
Qed.

(** Forward through a cell, as far as the next call whose outcome is
    not known. *)
Ltac py_fwd :=
  repeat first
    [ progress cbn [ns log fst snd callee_attr callee_result app map]
    | progress change (callable _ LibraryFunction) with true
    | rewrite bind_bind | rewrite bind_ret | rewrite bind_set_var
    | rewrite bind_emit | rewrite bind_out | rewrite bind_lift
    | rewrite bind_get_var | rewrite bind_call_callee | rewrite bind_call_method
    | rewrite module_attr_imported by eassumption
    | progress ns_simpl
    | rewrite out_run
    | match goal with
      | H : ?r = _ |- context [match ?r with _ => _ end] => rewrite H
      end ].

Lemma kernel_eta k : {| ns := ns k; log := log k |} = k.
Proof. destruct k; reflexivity. Qed.

(** Forward through a cell, by cases on every lookup, call and
    subscript. *)
Ltac py_cases :=
  repeat (py_fwd; cbn [ebind fst snd];
          match goal with
          | |- context [match ?r with _ => _ end] =>
              lazymatch r with
              | context [match _ with _ => _ end] => fail
              | _ => destruct r eqn:?
              end
          end);
  py_fwd; cbn [ebind fst snd].

Ltac py_done :=
  unfold emit, ret; cbn [ns log fst snd];
  rewrite ?app_nil_r, ?kernel_eta, <- ?app_assoc; cbn [ns log fst snd app];
  try reflexivity.

(** ** The IIIF notebook, cell by cell *)

Ltac unfold_cells :=
  unfold Iiif.cell_ie_pid, Iiif.cell_manifest, Iiif.cell_fields,
    Iiif.cell_canvases, Iiif.cell_loop, Iiif.cell_image_id, Iiif.cell_full,
    Iiif.cell_size, Iiif.cell_quality, Iiif.cell_region_left,
    Iiif.cell_region_right, Iiif.assign_image_url, Iiif.fetch_and_display,
    Iiif.loop_body, Iiif.canvas_resource,
    Ner.cell_install, Ner.cell_download, Ner.download, Ner.cell_about_slv,
    Ner.cell_tokens, Ner.cell_tagged_tokens, Ner.cell_tagset,
    Ner.cell_entities,
    import, print, call, subscript_key, subscript_int in *.

Ltac unfold_calls :=
  unfold played, calls_install, calls_download, calls_one_download,
    calls_about_slv, calls_tokens, calls_tagged_tokens, calls_tagset,
    calls_entities, calls_ie_pid, calls_manifest, calls_fields, calls_canvases,
    calls_image_id, calls_full, calls_size, calls_quality, calls_region_left,
    calls_region_right, calls_get_image, image_url_of, imported, called_callee,
    called_method, lookup, canvases_path, image_id_path;
  cbn [getpath getitem].

Ltac cell_calls := unfold_cells; unfold_calls; py_cases; py_done.

Section IiifRun.

Variable L : library.

Lemma manifest_url_of_str (pid : string) :
  Iiif.manifest_url_of L (PStr pid) = manifest_url pid.
Proof. reflexivity. Qed.

Lemma cell_loop_keeps x : x <> "canvas" -> keeps x (Iiif.cell_loop L).
Proof. intros Hx. unfold_cells. frame. Qed.

Lemma cell_loop_no_gets : adds_gets (Iiif.cell_loop L) 0.
Proof. unfold_cells. count_gets. Qed.

Lemma cell_loop_ok k k' :
  Iiif.cell_loop L k = (ok tt, k') ->
  (forall x, x <> "canvas" -> ns k' !! x = ns k !! x) /\
  get_requests (log k') = get_requests (log k).
Proof.
  intros H. split.
  - intros x Hx. pose proof (cell_loop_keeps x Hx k) as F.
    rewrite H in F. exact F.
  - destruct (cell_loop_no_gets k) as (l & E & Hl). rewrite H in E. simpl in E.
    destruct l; [|simpl in Hl; lia]. rewrite app_nil_r in E. exact E.
Qed.

(** The cells up to the loop. *)
Lemma read_manifest_ok pid k k' :
  run_cells [ Iiif.cell_ie_pid pid; Iiif.cell_manifest L; Iiif.cell_fields L;
              Iiif.cell_canvases L ] k = (ok tt, k') ->
  exists mr resp m cs,
    requests_get L (PStr (manifest_url pid)) false = ok resp /\
    Response_json L resp = ok m /\
    getpath (obj_getitem L) m canvases_path = ok cs /\
    ns k' !! "requests" = Some mr /\
    ns k' !! "manifest" = Some m /\
    ns k' !! "canvases" = Some cs /\
    get_requests (log k') = get_requests (log k) ++ [[PStr (manifest_url pid)]].
Proof.
  intros H. cbn [run_cells] in H. unfold_cells. py_inv H.
  rewrite manifest_url_of_str in *.
  eexists _, _, _, _. ns_simpl.
  split_and!; try eassumption; try reflexivity.
  - eapply Response_json_from; eassumption.
  - unfold canvases_path. use_results.
  - requests_simpl. reflexivity.
Qed.

(** All the cells before the image requests. *)
Lemma manifest_cells_ok pid k k' :
  run_cells (Iiif.manifest_cells L pid) k = (ok tt, k') ->
  exists resp m cs id,
    requests_get L (PStr (manifest_url pid)) false = ok resp /\
    Response_json L resp = ok m /\
    getpath (obj_getitem L) m canvases_path = ok cs /\
    getpath (obj_getitem L) cs image_id_path = ok id /\
    ns k' !! "manifest" = Some m /\
    ns k' !! "canvases" = Some cs /\
    ns k' !! "image_id" = Some id /\
    get_requests (log k') = get_requests (log k) ++ [[PStr (manifest_url pid)]].
Proof.
  intros H.
  change (Iiif.manifest_cells L pid)
    with ([ Iiif.cell_ie_pid pid; Iiif.cell_manifest L; Iiif.cell_fields L;
            Iiif.cell_canvases L ] ++ [Iiif.cell_loop L; Iiif.cell_image_id L]) in H.
  apply run_cells_app in H. destruct H as (k1 & H1 & H2).
  apply read_manifest_ok in H1.
  destruct H1 as (mr & resp & m & cs & Hget & Hjson & Hcs & Hreq & Hm & Hc & Hlog).
  cbn [run_cells] in H2. apply bind_ok_inv in H2.
  destruct H2 as ([] & k2 & Hloop & H2).
  apply cell_loop_ok in Hloop. destruct Hloop as [Hns Hlog2].
  unfold_cells. py_inv H2.
  repeat match goal with
         | H : ns k2 !! _ = Some _ |- _ => rewrite Hns in H by discriminate
         end.
  same_lookups.
  eexists _, _, _, _. ns_simpl. rewrite !Hns by discriminate.
  split_and!; try eassumption; try reflexivity.
  - unfold image_id_path. use_results.
  - requests_simpl. rewrite Hlog2, Hlog. reflexivity.
Qed.

(** The five image cells. *)
Lemma image_cells_ok k k' id :
  run_cells (Iiif.image_cells L) k = (ok tt, k') ->
  ns k !! "image_id" = Some id ->
  get_requests (log k') =
    get_requests (log k)
      ++ map (fun u => [PStr u; PBool true])
             (notebook_requests (py_format (builtin_str L) id)) /\
  ns k' !! "manifest" = ns k !! "manifest" /\
  ns k' !! "canvases" = ns k !! "canvases" /\
  ns k' !! "image_id" = Some id /\
  ns k' !! "image_url" =
    Some (PStr (image_request (py_format (builtin_str L) id)
                  "3400,1400,2700,2700" "pct:15" "0" "gray" "jpg")).
Proof.
  intros H Hid. unfold Iiif.image_cells in H. cbn [run_cells] in H.
  unfold_cells. py_inv H. same_lookups.
  ns_simpl. split_and!; try assumption; try reflexivity.
  requests_simpl. reflexivity.
Qed.

(** A run of the notebook that completes. *)
Lemma iiif_run_ok pid k k' :
  Iiif.run L pid k = (ok tt, k') ->
  exists resp m cs id,
    requests_get L (PStr (manifest_url pid)) false = ok resp /\
    Response_json L resp = ok m /\
    getpath (obj_getitem L) m canvases_path = ok cs /\
    getpath (obj_getitem L) cs image_id_path = ok id /\
    ns k' !! "manifest" = Some m /\
    ns k' !! "canvases" = Some cs /\
    ns k' !! "image_id" = Some id /\
    ns k' !! "image_url" =
      Some (PStr (image_request (py_format (builtin_str L) id)
                    "3400,1400,2700,2700" "pct:15" "0" "gray" "jpg")) /\
    get_requests (log k') =
      get_requests (log k)
        ++ ([PStr (manifest_url pid)]
            :: map (fun u => [PStr u; PBool true])
                   (notebook_requests (py_format (builtin_str L) id))).
Proof.
  intros H. unfold Iiif.run, Iiif.cells in H.
  apply run_cells_app in H. destruct H as (k1 & H1 & H2).
  apply manifest_cells_ok in H1.
  destruct H1 as (resp & m & cs & id & Hget & Hjson & Hcs & Hidp & Hm & Hc & Hid & Hlog).
  destruct (image_cells_ok _ _ _ H2 Hid) as (Hlog2 & Hm2 & Hc2 & Hid2 & Hurl).
  exists resp, m, cs, id.
  split_and!; try assumption; try congruence.
  rewrite Hlog2, Hlog, <- app_assoc. reflexivity.
Qed.

End IiifRun.

(** ** Reading an Image API request back *)



Lemma append_cons a s t : String a s +:+ t = String a (s +:+ t).
Proof. reflexivity. Qed.

Lemma append_nil t : "" +:+ t = t.
Proof. reflexivity. Qed.

Ltac str_norm := rewrite ?append_cons, ?append_nil.




(** ** The loop over the canvases *)

Section ReportProperties.

Variable L : library.

Lemma loop_body_run k c :
  ns k !! "canvas" = Some c ->
  Iiif.loop_body L k
  = (fst (canvas_report L c),
     {| ns := ns k; log := log k ++ snd (canvas_report L c) |}).
Proof.
  intros Hc. unfold_cells. unfold canvas_report, first_image_path, report_fields.
  cbn [print_fields getpath getitem ebind].
  py_cases; py_done; py_done.
Qed.

Lemma for_each_canvas_run cs k :
  fst (for_each "canvas" cs (Iiif.loop_body L) k) = fst (loop_report L cs) /\
  log (snd (for_each "canvas" cs (Iiif.loop_body L) k))
  = log k ++ snd (loop_report L cs).
Proof.
  revert k. induction cs as [|c cs IH]; intros k; cbn [for_each loop_report].
  - unfold ret. cbn [fst snd]. rewrite app_nil_r. auto.
  - rewrite !bind_set_var.
    pose proof (loop_body_run {| ns := <["canvas" := c]> (ns k); log := log k |} c
                  (lookup_insert_eq _ _ _)) as E.
    cbn [ns log] in E.
    destruct (canvas_report L c) as [[[]|e] evs]; cbn [fst snd] in *.
    + rewrite !(bind_ok _ _ _ _ _ E).
      specialize (IH {| ns := <["canvas" := c]> (ns k); log := log k ++ evs |}).
      destruct (loop_report L cs) as [r evs']. cbn [fst snd ns log] in *.
      destruct IH as [IH1 IH2]. rewrite IH1, IH2, app_assoc. auto.
    + rewrite !(bind_error _ _ _ _ _ E). auto.
Qed.

(** The loop cell over a list of canvases. *)
Lemma cell_loop_run k cs :
  ns k !! "canvases" = Some (PList cs) ->
  fst (Iiif.cell_loop L k) = fst (loop_report L cs) /\
  log (snd (Iiif.cell_loop L k)) = log k ++ snd (loop_report L cs).
Proof.
  intros Hcs. unfold Iiif.cell_loop. rewrite bind_get_var, Hcs, bind_lift.
  cbn [iterate]. apply for_each_canvas_run.
Qed.

Lemma canvas_report_first_image c c' :
  same_first_image L c c' -> canvas_report L c = canvas_report L c'.
Proof. unfold same_first_image, canvas_report. intros ->. reflexivity. Qed.

Lemma loop_report_first_image cs cs' :
  Forall2 (same_first_image L) cs cs' -> loop_report L cs = loop_report L cs'.
Proof.
  induction 1 as [|c c' cs cs' Hc _ IH]; cbn [loop_report].
  - reflexivity.
  - rewrite (canvas_report_first_image _ _ Hc), IH. reflexivity.
Qed.

(** The cell that takes [image_id], over a list of canvases. *)
Lemma cell_image_id_run k cs :
  ns k !! "canvases" = Some (PList cs) ->
  Iiif.cell_image_id L k
  = match
      ebind (ebind (getitem_int (obj_getitem L) (PList cs) 0)
                   (fun c => getpath (obj_getitem L) c first_image_path))
            (fun img => getpath (obj_getitem L) img
                          [Key "resource"; Key "service"; Key "@id"])
    with
    | ok id => (ok tt, {| ns := <["image_id" := id]> (ns k);
                          log := log k ++ out_events id |})
    | error e => (error e, k)
    end.
Proof.
  intros Hcs. unfold_cells. unfold first_image_path.
  cbn [getpath getitem].
  py_cases; py_done; py_done.
Qed.

Lemma seq_index_head {A} (x : A) (l : list A) : seq_index (x :: l) 0 = Some x.
Proof. reflexivity. Qed.

Lemma first_canvas_first_image cs cs' :
  Forall2 (same_first_image L) cs cs' ->
  ebind (getitem_int (obj_getitem L) (PList cs') 0)
        (fun c => getpath (obj_getitem L) c first_image_path)
  = ebind (getitem_int (obj_getitem L) (PList cs) 0)
          (fun c => getpath (obj_getitem L) c first_image_path).
Proof.
  intros [|c c' l l' Hc _]; [reflexivity|].
  cbn [getitem_int]. rewrite !seq_index_head. cbn [ebind].
  symmetry. exact Hc.
Qed.

End ReportProperties.

(** ** Each cell against what it does *)

Lemma tbind_error {A B} (t : Trace A) (f : A -> Trace B) (e : exn) :
  fst (tbind t f) = error e
  <-> fst t = error e \/ exists a, fst t = ok a /\ fst (f a) = error e.
Proof.
  destruct t as [[a|e'] effs]; cbn [tbind fst]; split.
  - intros H. right. exists a. destruct (f a). auto.
  - intros [H|(a' & H & H')]; [discriminate|].
    injection H as <-. destruct (f a). exact H'.
  - intros H. left. injection H as ->. reflexivity.
  - intros [H|(a' & H & H')]; [injection H as ->; reflexivity | discriminate].
Qed.

(** After an exception nothing more is done. *)
Lemma tbind_halts {A B} (t : Trace A) (f : A -> Trace B) (e : exn) :
  fst t = error e -> tbind t f = (error e, snd t).
Proof. destruct t as [[a|e'] effs]; cbn; intros H; [discriminate | congruence]. Qed.

Ltac trace_simpl :=
  cbn [tbind op called assigned shown logged played play fold_left apply_effect
       fst snd app ns log].

Ltac trace_cases :=
  repeat (py_fwd; cbn [ebind]; trace_simpl;
          match goal with
          | |- context [match ?r with _ => _ end] =>
              lazymatch r with
              | context [match _ with _ => _ end] => fail
              | _ => destruct r eqn:?
              end
          end);
  py_fwd; cbn [ebind]; trace_simpl.

Ltac cell_trace := unfold_cells; unfold_calls; trace_cases; py_done.

Section CallsProperties.

Variable L : library.

Lemma ner_cells_calls k :
  Ner.cell_install L k = played k (calls_install L) /\
  Ner.cell_download L k = played k (calls_download L) /\
  Ner.cell_about_slv k = played k calls_about_slv /\
  Ner.cell_tokens L k = played k (calls_tokens L k) /\
  Ner.cell_tagged_tokens L k = played k (calls_tagged_tokens L k) /\
  (forall p, Ner.cell_tagset L p k = played k (calls_tagset L p k)) /\
  Ner.cell_entities L k = played k (calls_entities L k).
Proof.
  split_and!; try intros p; cell_trace.
Qed.

Lemma for_each_canvas_played cs k :
  for_each "canvas" cs (Iiif.loop_body L) k = played k (calls_canvas_loop L cs).
Proof.
  revert k. induction cs as [|c cs IH]; intros k; cbn [for_each calls_canvas_loop].
  - unfold played, op, ret. cbn [fst snd play fold_left]. reflexivity.
  - rewrite bind_set_var.
    pose proof (loop_body_run L {| ns := <["canvas" := c]> (ns k); log := log k |} c
                  (lookup_insert_eq _ _ _)) as E.
    cbn [ns log] in E. unfold assigned.
    destruct (canvas_report L c) as [[[]|e] evs]; cbn [fst snd] in *.
    + rewrite (bind_ok _ _ _ _ _ E), IH. unfold played. cbn [tbind].
      destruct (calls_canvas_loop L cs) as [r effs]. reflexivity.
    + rewrite (bind_error _ _ _ _ _ E). reflexivity.
Qed.

Lemma cell_loop_calls k : Iiif.cell_loop L k = played k (calls_loop L k).
Proof.
  unfold Iiif.cell_loop, calls_loop, lookup. rewrite bind_get_var.
  destruct (ns k !! "canvases") as [cs|]; [|reflexivity].
  rewrite bind_lift. cbn [tbind op].
  destruct (iterate (obj_iter L) cs) as [items|e]; [|reflexivity].
  rewrite for_each_canvas_played. unfold played.
  destruct (calls_canvas_loop L items) as [r effs]. reflexivity.
Qed.

Lemma iiif_cells_calls k :
  (forall pid, Iiif.cell_ie_pid pid k = played k (calls_ie_pid pid)) /\
  Iiif.cell_manifest L k = played k (calls_manifest L k) /\
  Iiif.cell_fields L k = played k (calls_fields L k) /\
  Iiif.cell_canvases L k = played k (calls_canvases L k) /\
  Iiif.cell_loop L k = played k (calls_loop L k) /\
  Iiif.cell_image_id L k = played k (calls_image_id L k) /\
  Iiif.cell_full L k = played k (calls_full L k) /\
  Iiif.cell_size L k = played k (calls_size L k) /\
  Iiif.cell_quality L k = played k (calls_quality L k) /\
  Iiif.cell_region_left L k = played k (calls_region_left L k) /\
  Iiif.cell_region_right L k = played k (calls_region_right L k).
Proof.
  split_and!; try intros pid; try apply cell_loop_calls; cell_trace.
Qed.

End CallsProperties.

(** ** The NER notebook *)

Section NerRun.

Variable L : library.

(** A run of the NER notebook that completes. *)
Lemma ner_run_ok k k' :
  Ner.run L k = (ok tt, k') ->
  exists toks tagged ents,
    nltk_word_tokenize L (PStr Ner.about_slv_text) = ok toks /\
    nltk_pos_tag L toks = ok tagged /\
    nltk_ne_chunk L tagged = ok ents /\
    ns k' !! "about_slv" = Some (PStr Ner.about_slv_text) /\
    ns k' !! "tokens" = Some toks /\
    ns k' !! "tagged_tokens" = Some tagged /\
    ns k' !! "entities" = Some ents /\
    In (ECall "nltk.word_tokenize" [PStr Ner.about_slv_text]) (log k') /\
    In (ECall "nltk.pos_tag" [toks]) (log k') /\
    In (ECall "nltk.ne_chunk" [tagged]) (log k').
Proof.
  intros H. unfold Ner.run, Ner.notebook in H. cbn [run_cells] in H.
  unfold_cells. py_inv H.
  eexists _, _, _. ns_simpl.
  split_and!; try eassumption; try reflexivity.
  all: rewrite !in_app_iff; cbn [In]; auto 20.
Qed.

End NerRun.

(** ** The saved outputs of the NER notebook, one against another *)

Example saved_tokens_length : length Saved.tokens = 33%nat.
Proof. reflexivity. Qed.

(** The tokens are the text of [about_slv], cut at and without its white
    space. *)
Example saved_tokens_cover_text :
  String.concat "" Saved.tokens = without_spaces Ner.about_slv_text.
Proof. vm_compute. reflexivity. Qed.

(** The tagged tokens are the tokens, in order, each with a tag. *)
Example saved_tags_pair_tokens : map fst Saved.tagged_tokens = Saved.tokens.
Proof. reflexivity. Qed.

(** The leaves of the tree are the tagged tokens, in order. *)
Example saved_entities_leaves :
  leaves Saved.entities
  = map (fun wt => Saved.leaf (fst wt) (snd wt)) Saved.tagged_tokens.
Proof. reflexivity. Qed.

(** The tree has three spans under its root. *)
Example saved_entity_spans :
  entity_spans Saved.entities
  = [ ("GPE", [Saved.leaf "Melbourne" "NNP"]);
      ("ORGANIZATION",
       [Saved.leaf "Melbourne" "NNP"; Saved.leaf "Public" "NNP";
        Saved.leaf "Library" "NNP"]);
      ("GPE", [Saved.leaf "Australia" "NNP"]) ].
Proof. reflexivity. Qed.

(** * The claims *)

Lemma append_assoc (s t u : string) : (s +:+ t) +:+ u = s +:+ (t +:+ u).
Proof.
  induction s as [|a s IH]; [reflexivity|].
  rewrite !append_cons, IH. reflexivity.
Qed.

(** A request to an image service whose base URI is
    [{scheme}://{server}/{prefix}/{identifier}] has the form the Image
    API gives. *)
Lemma image_request_api_form scheme server prefix identifier r s ro q f :
  image_request (scheme +:+ "://" +:+ server +:+ "/" +:+ prefix +:+ "/" +:+ identifier)
    r s ro q f
  = image_api_form scheme server prefix identifier r s ro q f.
Proof.
  unfold image_request, image_api_form. rewrite !append_assoc. reflexivity.
Qed.

(** ** C1 *)

(** The two statements that end an image cell request the URL that
    [image_url] holds, once or not at all, and assign [img] only. *)
Lemma fetch_and_display_requests (L : library) (k : kernel) (u : string) :
  ns k !! "image_url" = Some (PStr u) ->
  get_requests (log (snd (Iiif.fetch_and_display L k))) = get_requests (log k) \/
  get_requests (log (snd (Iiif.fetch_and_display L k)))
  = get_requests (log k) ++ [[PStr u; PBool true]].
Proof.
  intros Hu. unfold Iiif.fetch_and_display. unfold call.
  py_cases; requests_simpl; auto.
Qed.

Lemma fetch_and_display_keeps (L : library) (x : string) :
  x <> "img" -> keeps x (Iiif.fetch_and_display L).
Proof. intros Hx. unfold Iiif.fetch_and_display, call. frame. Qed.

(** The URL of a cell from the values of the parameters. *)
Lemma request_of_parameters (L : library) (n : nat) (m : gmap string pyval)
    (id : pyval) (p : image_params) :
  m !! "image_id" = Some id ->
  image_parameters (builtin_str L) n m = Some p ->
  base p = py_format (builtin_str L) id /\
  format p = "jpg" /\
  (forall scheme server prefix identifier,
      base p = scheme +:+ "://" +:+ server +:+ "/" +:+ prefix +:+ "/" +:+ identifier ->
      request_of p
      = image_api_form scheme server prefix identifier
          (region p) (size p) (rotation p) (quality p) (format p)).
Proof.
  intros Hid Hp.
  assert (base p = py_format (builtin_str L) id /\ format p = "jpg") as [Hb Hf].
  { destruct n as [|n]; cbn [image_parameters] in Hp; rewrite Hid in Hp;
      cbn [mbind option_bind] in Hp.
    - injection Hp as <-. auto.
    - destruct (m !! "region"); [|discriminate].
      destruct (m !! "size"); [|discriminate].
      destruct (m !! "rotation"); [|discriminate].
      destruct (m !! "quality"); [|discriminate].
      cbn [mbind option_bind] in Hp. injection Hp as <-. auto. }
  split_and!; [exact Hb | exact Hf |].
  intros scheme server prefix identifier Hbase.
  unfold request_of. rewrite Hbase. apply image_request_api_form.
Qed.

(** C1.  Every URL an image cell builds is the Image API form
    [{scheme}://{server}/{prefix}/{identifier}/{region}/{size}/{rotation}/{quality}.{format}]
    at the values its parameters have there: the image service's ['@id']
    (the value of [image_id]) for
    [{scheme}://{server}/{prefix}/{identifier}]; the region, size,
    rotation and quality that the first image cell writes out ([full],
    [max], [0], [default]) and that the four cells after it take from
    the variables [region], [size], [rotation] and [quality]; and the
    format [jpg], which every cell writes out.  This holds whether the
    cell completes or raises: a cell either raises before it has built a
    URL, and then leaves [image_url] as it was and requests nothing, or
    binds [image_url] to that URL and requests nothing but it. *)
Theorem image_url_from_parameters
    (L : library) (n : nat) (c : Py unit) (k k' : kernel) (r : Except unit) :
  nth_error (Iiif.image_cells L) n = Some c ->
  c k = (r, k') ->
  ((exists e, r = error e) /\
   ns k' !! "image_url" = ns k !! "image_url" /\
   get_requests (log k') = get_requests (log k))
  \/
  (exists id u p,
      ns k' !! "image_id" = Some id /\
      ns k' !! "image_url" = Some (PStr u) /\
      image_parameters (builtin_str L) n (ns k') = Some p /\
      base p = py_format (builtin_str L) id /\
      format p = "jpg" /\
      u = request_of p /\
      (forall scheme server prefix identifier,
          base p
          = scheme +:+ "://" +:+ server +:+ "/" +:+ prefix +:+ "/" +:+ identifier ->
          u = image_api_form scheme server prefix identifier
                (region p) (size p) (rotation p) (quality p) (format p)) /\
      (get_requests (log k') = get_requests (log k) \/
       get_requests (log k') = get_requests (log k) ++ [[PStr u; PBool true]])).
Proof.
  intros Hn Hc.
  assert (Hend : forall k1 id u p,
             Iiif.fetch_and_display L k1 = (r, k') ->
             ns k1 !! "image_id" = Some id ->
             ns k1 !! "image_url" = Some (PStr u) ->
             image_parameters (builtin_str L) n (ns k1) = Some p ->
             u = request_of p ->
             get_requests (log k1) = get_requests (log k) ->
             exists id u p,
               ns k' !! "image_id" = Some id /\
               ns k' !! "image_url" = Some (PStr u) /\
               image_parameters (builtin_str L) n (ns k') = Some p /\
               base p = py_format (builtin_str L) id /\
               format p = "jpg" /\
               u = request_of p /\
               (forall scheme server prefix identifier,
                   base p
                   = scheme +:+ "://" +:+ server +:+ "/" +:+ prefix +:+ "/"
                       +:+ identifier ->
                   u = image_api_form scheme server prefix identifier
                         (region p) (size p) (rotation p) (quality p) (format p)) /\
               (get_requests (log k') = get_requests (log k) \/
                get_requests (log k')
                = get_requests (log k) ++ [[PStr u; PBool true]])).
  { intros k1 id u p Hf Hid Hu Hp Hreq Hlog.
    assert (Hkeep : forall x, x <> "img" -> ns k' !! x = ns k1 !! x).
    { intros x Hx. pose proof (fetch_and_display_keeps L x Hx k1) as F.
      rewrite Hf in F. exact F. }
    assert (Hp' : image_parameters (builtin_str L) n (ns k') = Some p).
    { rewrite <- Hp. unfold image_parameters.
      rewrite !Hkeep by discriminate. reflexivity. }
    pose proof (fetch_and_display_requests L k1 u Hu) as Hget.
    rewrite Hf in Hget. cbn [snd] in Hget. rewrite Hlog in Hget.
    rewrite <- (Hkeep "image_id") in Hid by discriminate.
    rewrite <- (Hkeep "image_url") in Hu by discriminate.
    destruct (request_of_parameters L n (ns k') id p Hid Hp') as (Hb & Hfmt & Hform).
    exists id, u, p. split_and!; try assumption.
    intros scheme server prefix identifier Hbase. rewrite Hreq.
    apply Hform. exact Hbase. }
  unfold Iiif.image_cells in Hn.
  destruct n as [|[|[|[|[|n]]]]]; cbn [nth_error] in Hn;
    try (destruct n; discriminate); injection Hn as <-;
    revert Hc;
    unfold Iiif.cell_full, Iiif.cell_size, Iiif.cell_quality,
      Iiif.cell_region_left, Iiif.cell_region_right, Iiif.assign_image_url,
      import, call;
    py_cases;
    try (intros [= <- <-]; left; cbn [ns log]; ns_simpl; requests_simpl;
         split_and!; [eexists; reflexivity | reflexivity | reflexivity]);
    intros Hf; right;
    (eapply Hend;
     [ exact Hf
     | cbn [ns]; ns_simpl; eassumption
     | cbn [ns]; ns_simpl; reflexivity
     | cbn [ns image_parameters]; ns_simpl;
       repeat match goal with H : ns k !! _ = Some _ |- _ => rewrite H end;
       reflexivity
     | reflexivity
     | cbn [log]; requests_simpl; reflexivity ]).
Qed.

Lemma image_url_from_parameters_witness :
  exists id u p,
    ns Saved.after_cell_size !! "image_id" = Some id /\
    ns Saved.after_cell_size !! "image_url" = Some (PStr u) /\
    image_parameters (builtin_str Saved.lib) 1 (ns Saved.after_cell_size) = Some p /\
    base p = py_format (builtin_str Saved.lib) id /\
    format p = "jpg" /\
    u = request_of p /\
    (forall scheme server prefix identifier,
        base p
        = scheme +:+ "://" +:+ server +:+ "/" +:+ prefix +:+ "/" +:+ identifier ->
        u = image_api_form scheme server prefix identifier
              (region p) (size p) (rotation p) (quality p) (format p)) /\
    (get_requests (log Saved.after_cell_size)
     = get_requests (log Saved.after_cell_full) \/
     get_requests (log Saved.after_cell_size)
     = get_requests (log Saved.after_cell_full) ++ [[PStr u; PBool true]]).
Proof.
  destruct (image_url_from_parameters Saved.lib 1 (Iiif.cell_size Saved.lib)
              Saved.after_cell_full Saved.after_cell_size (ok tt))
    as [[[e He] _]|H].
  - reflexivity.
  - vm_compute. reflexivity.
  - discriminate He.
  - exact H.
Defined.

(** ** C2 *)

(** C2.  For every identifier the manifest URL is
    ["https://rosetta.slv.vic.gov.au/delivery/iiif/presentation/2.1/"],
    the identifier, ["/manifest"], which is the documented form at that
    server; once [requests] and [pprint] are imported, the cell calls
    [requests.get] once, on that URL, and binds [manifest] to what
    [Response.json] gives for the response, or raises what either
    raised. *)
Theorem manifest_request
    (L : library) (pid : string) (k : kernel) (mr mp : pyval) :
  import_module L "requests" = ok mr ->
  import_module L "pprint" = ok mp ->
  let url := "https://rosetta.slv.vic.gov.au/delivery/iiif/presentation/2.1/"
               +:+ pid +:+ "/manifest" in
  let run := run_cells [Iiif.cell_ie_pid pid; Iiif.cell_manifest L] k in
  Iiif.manifest_url_of L (PStr pid) = url /\
  url = presentation_manifest_form "https://rosetta.slv.vic.gov.au" pid /\
  ns (snd run) !! "manifest_url" = Some (PStr url) /\
  get_requests (log (snd run)) = get_requests (log k) ++ [[PStr url]] /\
  match requests_get L (PStr url) false with
  | error e => fst run = error e
  | ok resp =>
      match Response_json L resp with
      | error e => fst run = error e
      | ok m =>
          ns (snd run) !! "manifest" = Some m /\
          In (ECall "Response.json" [resp]) (log (snd run))
      end
  end.
Proof.
  intros Hr Hp url run. subst run.
  split; [reflexivity|]. split; [reflexivity|].
  cbn [run_cells]. unfold_cells.
  py_fwd.
  change (Iiif.manifest_url_of L (PStr pid)) with url.
  destruct (requests_get L (PStr url) false) as [resp|e]; py_fwd.
  2:{ split_and!; [reflexivity | requests_simpl; reflexivity | reflexivity]. }
  unfold Response_json.
  destruct (py_getattr L resp a_json) as [json|e]; py_fwd; cbn [ebind].
  2:{ split_and!; [reflexivity | requests_simpl; reflexivity | reflexivity]. }
  destruct (callable L (Attribute json)) eqn:Hjson.
  2:{ rewrite (not_callable_apply L json [] [] Hjson). py_fwd.
      split_and!; [reflexivity | requests_simpl; reflexivity | reflexivity]. }
  destruct (apply_object L json [] []) as [m|e]; py_fwd.
  2:{ split_and!; [reflexivity | requests_simpl; reflexivity | reflexivity]. }
  py_cases; unfold ret; py_fwd;
    (split_and!; [reflexivity | requests_simpl; reflexivity | reflexivity |]);
    rewrite !in_app_iff; simpl; auto 10.
Qed.

Lemma manifest_request_witness :
  let run := run_cells [Iiif.cell_ie_pid "IE145082"; Iiif.cell_manifest Saved.lib]
               fresh_kernel in
  ns (snd run) !! "manifest_url"
  = Some (PStr "https://rosetta.slv.vic.gov.au/delivery/iiif/presentation/2.1/IE145082/manifest") /\
  get_requests (log (snd run))
  = [[PStr "https://rosetta.slv.vic.gov.au/delivery/iiif/presentation/2.1/IE145082/manifest"]] /\
  ns (snd run) !! "manifest" = Some Saved.manifest.
Proof.
  intros run.
  destruct (manifest_request Saved.lib "IE145082" fresh_kernel
              (Saved.module "requests") (Saved.module "pprint") eq_refl eq_refl)
    as (_ & _ & Hurl & Hget & Hm).
  split; [exact Hurl|]. split; [exact Hget|]. exact (proj1 Hm).
Defined.

(** ** C3 *)

Lemma iiif_run_adds_gets (L : library) (pid : string) : adds_gets (Iiif.run L pid) 6.
Proof.
  unfold Iiif.run, Iiif.cells, Iiif.manifest_cells, Iiif.image_cells.
  cbn [app run_cells]. unfold_cells. count_gets.
Qed.

(** C3, as amended.  A run of the IIIF notebook calls [requests.get] at
    most six times, whatever the libraries answer; a run that completes
    calls it exactly six times: once on the manifest URL, then once on
    each of the five image URLs, in the order of the cells. *)
Theorem iiif_get_requests
    (L : library) (pid : string) (k k' : kernel) (r : Except unit) :
  Iiif.run L pid k = (r, k') ->
  exists l,
    get_requests (log k') = get_requests (log k) ++ l /\
    (length l <= 6)%nat /\
    (r = ok tt ->
     exists id,
       ns k' !! "image_id" = Some id /\
       l = [PStr (manifest_url pid)]
           :: map (fun u => [PStr u; PBool true])
                  (notebook_requests (py_format (builtin_str L) id))).
Proof.
  intros H. destruct (iiif_run_adds_gets L pid k) as (l & E & Hl).
  rewrite H in E. simpl in E. exists l. split_and!; try assumption.
  intros ->. apply iiif_run_ok in H.
  destruct H as (resp & m & cs & id & _ & _ & _ & _ & _ & _ & Hid & _ & Hlog).
  exists id. split; [exact Hid|].
  rewrite Hlog in E. apply app_inv_head in E. symmetry. exact E.
Qed.

Lemma iiif_get_requests_witness :
  exists l,
    get_requests (log Saved.iiif_run) = get_requests (log fresh_kernel) ++ l /\
    (length l <= 6)%nat /\
    (ok tt = ok tt ->
     exists id,
       ns Saved.iiif_run !! "image_id" = Some id /\
       l = [PStr (manifest_url "IE145082")]
           :: map (fun u => [PStr u; PBool true])
                  (notebook_requests (py_format (builtin_str Saved.lib) id))).
Proof.
  apply (iiif_get_requests Saved.lib "IE145082" fresh_kernel Saved.iiif_run (ok tt)).
  vm_compute. reflexivity.
Defined.

(** C3, as stated, fails: with every call returning, the run of the
    notebook calls [requests.get] six times, not once. *)
Lemma iiif_run_not_single_get :
  ~ (forall (L : library) (pid : string) (k : kernel),
        length (get_requests (log (snd (Iiif.run L pid k))))
        = (length (get_requests (log k)) + 1)%nat).
Proof.
  intros H. specialize (H Saved.lib "IE145082" fresh_kernel).
  vm_compute in H. discriminate.
Qed.

(** ** C7 *)



(** ** C8 *)

(** C8.  No cell handles an exception.  Every cell of both notebooks
    is the trace of what it does: the lookups, imports, calls and
    subscripts of the cell, each made once, in the order of the source,
    each fed to the next, with the assignments and the output on the
    way; among them the [GET]s, the decoding of the manifest, the
    subscripts ["attribution"], ["label"] and ["sequences"] of it, and
    the tagger.  The result of the cell is the result of the trace, and
    the kernel after the cell is the kernel with what the trace did and
    nothing else.  A trace raises exactly when one of its steps raises,
    and raises that exception; after it no step is made, so that the call
    that raised is the last thing logged, logged once, and nothing is
    assigned or shown after it.  So for the [GET] of the manifest: when
    it raises, the manifest cell raises the same, having made that one
    call and bound neither [response] nor [manifest]; and for the tagger:
    when it raises, the tagging cell raises the same, having made that
    one call and bound nothing.  And a cell that raises ends the run: the
    cells after it are not run, the kernel is left as the failing cell
    left it, and the run raises the same exception. *)
Theorem failures_propagate (L : library) :
  (forall A B (r : Except A) (f : A -> Except B) e,
      ebind r f = error e <-> r = error e \/ exists a, r = ok a /\ f a = error e) /\
  (forall A B (t : Trace A) (f : A -> Trace B) e,
      (fst (tbind t f) = error e
       <-> fst t = error e \/ exists a, fst t = ok a /\ fst (f a) = error e) /\
      (fst t = error e -> tbind t f = (error e, snd t))) /\
  (forall k,
      Ner.cell_install L k = played k (calls_install L) /\
      Ner.cell_download L k = played k (calls_download L) /\
      Ner.cell_about_slv k = played k calls_about_slv /\
      Ner.cell_tokens L k = played k (calls_tokens L k) /\
      Ner.cell_tagged_tokens L k = played k (calls_tagged_tokens L k) /\
      (forall p, Ner.cell_tagset L p k = played k (calls_tagset L p k)) /\
      Ner.cell_entities L k = played k (calls_entities L k)) /\
  (forall k,
      (forall pid, Iiif.cell_ie_pid pid k = played k (calls_ie_pid pid)) /\
      Iiif.cell_manifest L k = played k (calls_manifest L k) /\
      Iiif.cell_fields L k = played k (calls_fields L k) /\
      Iiif.cell_canvases L k = played k (calls_canvases L k) /\
      Iiif.cell_loop L k = played k (calls_loop L k) /\
      Iiif.cell_image_id L k = played k (calls_image_id L k) /\
      Iiif.cell_full L k = played k (calls_full L k) /\
      Iiif.cell_size L k = played k (calls_size L k) /\
      Iiif.cell_quality L k = played k (calls_quality L k) /\
      Iiif.cell_region_left L k = played k (calls_region_left L k) /\
      Iiif.cell_region_right L k = played k (calls_region_right L k)) /\
  (forall k mr mp ie_pid e,
      import_module L "requests" = ok mr ->
      import_module L "pprint" = ok mp ->
      ns k !! "ie_pid" = Some ie_pid ->
      requests_get L (PStr (Iiif.manifest_url_of L ie_pid)) false = error e ->
      Iiif.cell_manifest L k
      = (error e,
         {| ns := <["manifest_url" := PStr (Iiif.manifest_url_of L ie_pid)]>
                    (<["pprint" := mp]> (<["requests" := mr]> (ns k)));
            log := log k
                   ++ [ ECall "import" [PStr "requests"];
                        ECall "import" [PStr "pprint"];
                        ECall "requests.get"
                          [PStr (Iiif.manifest_url_of L ie_pid)] ] |})) /\
  (forall k nltk toks e,
      import_module L "nltk" = ok nltk ->
      ns k !! "nltk" = Some nltk ->
      ns k !! "tokens" = Some toks ->
      nltk_pos_tag L toks = error e ->
      Ner.cell_tagged_tokens L k
      = (error e,
         {| ns := ns k; log := log k ++ [ECall "nltk.pos_tag" [toks]] |})) /\
  (forall (pre post : list (Py unit)) (c : Py unit) k k1 k2 e,
      run_cells pre k = (ok tt, k1) ->
      c k1 = (error e, k2) ->
      run_cells (pre ++ c :: post) k = (error e, k2)).
Proof.
  split_and!.
  - intros A B r f e. apply ebind_error.
  - intros A B t f e. split; [apply tbind_error | apply tbind_halts].
  - apply ner_cells_calls.
  - apply iiif_cells_calls.
  - intros k mr mp ie_pid e Hr Hp Hpid Hget. unfold_cells. py_fwd.
    rewrite <- !app_assoc. reflexivity.
  - intros k nltk toks e Hm Hn Ht Htag. unfold_cells. py_fwd. reflexivity.
  - apply run_cells_halts.
Qed.

(** Without a network the manifest cell raises the exception of
    [requests.get] after that one call, and the run of the IIIF notebook
    ends there; without its data the tagger raises, and the tagging cell
    with it. *)
Lemma failures_propagate_witness :
  let k1 := snd (Iiif.cell_ie_pid "IE145082" fresh_kernel) in
  let k3 := snd (run_cells [ Ner.cell_install Cases.lib_no_tagger;
                             Ner.cell_download Cases.lib_no_tagger;
                             Ner.cell_about_slv;
                             Ner.cell_tokens Cases.lib_no_tagger ] fresh_kernel) in
  Iiif.cell_manifest Saved.offline k1
  = (error (Raised "ConnectionError" "Max retries exceeded"),
     {| ns := <["manifest_url" := PStr (manifest_url "IE145082")]>
                (<["pprint" := Saved.module "pprint"]>
                   (<["requests" := Saved.module "requests"]> (ns k1)));
        log := [ ECall "import" [PStr "requests"];
                 ECall "import" [PStr "pprint"];
                 ECall "requests.get" [PStr (manifest_url "IE145082")] ] |}) /\
  Ner.cell_tagged_tokens Cases.lib_no_tagger k3
  = (error (Raised "LookupError" "Resource averaged_perceptron_tagger_eng not found."),
     {| ns := ns k3;
        log := log k3 ++ [ECall "nltk.pos_tag" [PList (map PStr Saved.tokens)]] |}) /\
  run_cells
    ([Iiif.cell_ie_pid "IE145082"]
       ++ Iiif.cell_manifest Saved.offline
          :: [ Iiif.cell_fields Saved.offline; Iiif.cell_canvases Saved.offline;
               Iiif.cell_loop Saved.offline; Iiif.cell_image_id Saved.offline ])
    fresh_kernel
  = (error (Raised "ConnectionError" "Max retries exceeded"),
     snd (Iiif.cell_manifest Saved.offline k1)).
Proof.
  intros k1 k3.
  destruct (failures_propagate Saved.offline) as (_ & _ & _ & _ & Hget & _ & Hrun).
  destruct (failures_propagate Cases.lib_no_tagger) as (_ & _ & _ & _ & _ & Htag & _).
  split_and!.
  - apply (Hget k1 (Saved.module "requests") (Saved.module "pprint") (PStr "IE145082"));
      reflexivity.
  - apply (Htag k3 (Saved.module "nltk") (PList (map PStr Saved.tokens)));
      reflexivity.
  - apply Hrun with (k1 := k1); [reflexivity | vm_compute; reflexivity].
Defined.

(** ** C9 *)

(** C9.  In a run of the NER notebook that completes, from any kernel
    state, [entities] is what [ne_chunk] gives for [tagged_tokens],
    which is what [pos_tag] gives for [tokens], which is what
    [word_tokenize] gives for the text of [about_slv]; each was called
    on the value of the variable before it.  In a run of the IIIF
    notebook that completes, [canvases] is
    [manifest["sequences"][0]["canvases"]], [image_id] is
    [canvases[0]["images"][0]["resource"]["service"]["@id"]], and the
    image URLs requested are the five requests to [image_id]. *)
Theorem variable_handoff (L : library) :
  (forall k k',
      Ner.run L k = (ok tt, k') ->
      exists toks tagged ents,
        ns k' !! "tokens" = Some toks /\
        ns k' !! "tagged_tokens" = Some tagged /\
        ns k' !! "entities" = Some ents /\
        nltk_word_tokenize L (PStr Ner.about_slv_text) = ok toks /\
        nltk_pos_tag L toks = ok tagged /\
        nltk_ne_chunk L tagged = ok ents /\
        ebind (ebind (nltk_word_tokenize L (PStr Ner.about_slv_text))
                     (nltk_pos_tag L))
              (nltk_ne_chunk L) = ok ents /\
        In (ECall "nltk.pos_tag" [toks]) (log k') /\
        In (ECall "nltk.ne_chunk" [tagged]) (log k')) /\
  (forall pid k k',
      Iiif.run L pid k = (ok tt, k') ->
      exists m cs id,
        ns k' !! "manifest" = Some m /\
        ns k' !! "canvases" = Some cs /\
        ns k' !! "image_id" = Some id /\
        getpath (obj_getitem L) m canvases_path = ok cs /\
        getpath (obj_getitem L) cs image_id_path = ok id /\
        ns k' !! "image_url" =
          Some (PStr (image_request (py_format (builtin_str L) id)
                        "3400,1400,2700,2700" "pct:15" "0" "gray" "jpg")) /\
        get_requests (log k') =
          get_requests (log k)
            ++ ([PStr (manifest_url pid)]
                :: map (fun u => [PStr u; PBool true])
                       (notebook_requests (py_format (builtin_str L) id)))).
Proof.
  split.
  - intros k k' H. apply ner_run_ok in H.
    destruct H as (toks & tagged & ents & H1 & H2 & H3 & _ & H5 & H6 & H7 & _ & H9 & H10).
    exists toks, tagged, ents. split_and!; try assumption.
    rewrite H1. cbn [ebind]. rewrite H2. cbn [ebind]. exact H3.
  - intros pid k k' H. apply iiif_run_ok in H.
    destruct H as (resp & m & cs & id & _ & _ & Hcs & Hid & Hm & Hc & Hi & Hu & Hlog).
    exists m, cs, id. split_and!; assumption.
Qed.

Lemma variable_handoff_witness :
  (exists toks tagged ents,
      ns Saved.ner_run !! "tokens" = Some toks /\
      ns Saved.ner_run !! "tagged_tokens" = Some tagged /\
      ns Saved.ner_run !! "entities" = Some ents /\
      nltk_word_tokenize Saved.lib (PStr Ner.about_slv_text) = ok toks /\
      nltk_pos_tag Saved.lib toks = ok tagged /\
      nltk_ne_chunk Saved.lib tagged = ok ents /\
      ebind (ebind (nltk_word_tokenize Saved.lib (PStr Ner.about_slv_text))
                   (nltk_pos_tag Saved.lib))
            (nltk_ne_chunk Saved.lib) = ok ents /\
      In (ECall "nltk.pos_tag" [toks]) (log Saved.ner_run) /\
      In (ECall "nltk.ne_chunk" [tagged]) (log Saved.ner_run)) /\
  (exists m cs id,
      ns Saved.iiif_run !! "manifest" = Some m /\
      ns Saved.iiif_run !! "canvases" = Some cs /\
      ns Saved.iiif_run !! "image_id" = Some id /\
      getpath (obj_getitem Saved.lib) m canvases_path = ok cs /\
      getpath (obj_getitem Saved.lib) cs image_id_path = ok id /\
      ns Saved.iiif_run !! "image_url" =
        Some (PStr (image_request (py_format (builtin_str Saved.lib) id)
                      "3400,1400,2700,2700" "pct:15" "0" "gray" "jpg")) /\
      get_requests (log Saved.iiif_run) =
        get_requests (log fresh_kernel)
          ++ ([PStr (manifest_url "IE145082")]
              :: map (fun u => [PStr u; PBool true])
                     (notebook_requests (py_format (builtin_str Saved.lib) id)))).
Proof.
  split.
  - apply (proj1 (variable_handoff Saved.lib) fresh_kernel Saved.ner_run).
    vm_compute. reflexivity.
  - apply (proj2 (variable_handoff Saved.lib) "IE145082" fresh_kernel Saved.iiif_run).
    vm_compute. reflexivity.
Defined.

(** ** C10 *)

(** C10.  Over a list of canvases, the loop prints for each canvas, in
    order, the service ['@id'], the format, the width and the height
    under ["resource"] of its first image, until a subscript raises; the
    cell after it binds [image_id] to
    [canvases[0]["images"][0]["resource"]["service"]["@id"]], the service
    ['@id'] of the first image of the first canvas, and shows it, or
    raises what a subscript on that path raises and binds nothing.
    Neither reads anything else of a canvas: on canvases with the same
    first images both cells raise or print, and bind [image_id], alike.
    The image cells that follow build their requests from [image_id]
    alone. *)
Theorem only_first_image_read
    (L : library) (k : kernel) (cs cs' : list pyval) :
  ns k !! "canvases" = Some (PList cs) ->
  Forall2 (same_first_image L) cs cs' ->
  let k2 := {| ns := <["canvases" := PList cs']> (ns k); log := log k |} in
  fst (Iiif.cell_loop L k) = fst (loop_report L cs) /\
  log (snd (Iiif.cell_loop L k)) = log k ++ snd (loop_report L cs) /\
  Iiif.cell_image_id L k
  = match getpath (obj_getitem L) (PList cs)
            (Idx 0 :: first_image_path ++ [Key "resource"; Key "service"; Key "@id"])
    with
    | ok id => (ok tt, {| ns := <["image_id" := id]> (ns k);
                          log := log k ++ out_events id |})
    | error e => (error e, k)
    end /\
  fst (Iiif.cell_loop L k2) = fst (Iiif.cell_loop L k) /\
  log (snd (Iiif.cell_loop L k2)) = log (snd (Iiif.cell_loop L k)) /\
  fst (Iiif.cell_image_id L k2) = fst (Iiif.cell_image_id L k) /\
  log (snd (Iiif.cell_image_id L k2)) = log (snd (Iiif.cell_image_id L k)) /\
  ns (snd (Iiif.cell_image_id L k2)) !! "image_id"
  = ns (snd (Iiif.cell_image_id L k)) !! "image_id" /\
  (forall k1 k1' id,
      ns k1 !! "image_id" = Some id ->
      run_cells (Iiif.image_cells L) k1 = (ok tt, k1') ->
      get_requests (log k1')
      = get_requests (log k1)
        ++ map (fun u => [PStr u; PBool true])
               (notebook_requests (py_format (builtin_str L) id))).
Proof.
  intros Hcs Hsame k2.
  assert (Hcs2 : ns k2 !! "canvases" = Some (PList cs'))
    by (apply lookup_insert_eq).
  destruct (cell_loop_run L k cs Hcs) as [F1 F2].
  destruct (cell_loop_run L k2 cs' Hcs2) as [G1 G2].
  rewrite <- (loop_report_first_image L _ _ Hsame) in G1, G2.
  assert (Hpath : Iiif.cell_image_id L k
                  = match getpath (obj_getitem L) (PList cs)
                            (Idx 0 :: first_image_path
                               ++ [Key "resource"; Key "service"; Key "@id"])
                    with
                    | ok id => (ok tt, {| ns := <["image_id" := id]> (ns k);
                                          log := log k ++ out_events id |})
                    | error e => (error e, k)
                    end).
  { rewrite (cell_image_id_run L k cs Hcs). unfold first_image_path.
    cbn [app getpath getitem].
    destruct (getitem_int (obj_getitem L) (PList cs) 0) as [c|e]; [|reflexivity].
    cbn [ebind].
    destruct (getitem_key (obj_getitem L) c "images") as [imgs|e]; [|reflexivity].
    destruct (getitem_int (obj_getitem L) imgs 0) as [img|e]; reflexivity. }
  rewrite (cell_image_id_run L k cs Hcs), (cell_image_id_run L k2 cs' Hcs2).
  rewrite (first_canvas_first_image L _ _ Hsame).
  split_and!; try assumption; try congruence.
  - rewrite <- (cell_image_id_run L k cs Hcs). exact Hpath.
  - rewrite G2, F2. reflexivity.
  - destruct (ebind _ _); reflexivity.
  - destruct (ebind _ _); reflexivity.
  - destruct (ebind _ _); cbn [ns snd]; ns_simpl; [reflexivity|].
    subst k2. cbn [ns]. ns_simpl. reflexivity.
  - intros k1 k1' id Hid Hrun.
    apply (image_cells_ok L k1 k1' id Hrun Hid).
Qed.

Lemma only_first_image_read_witness :
  let k := Saved.kernel_two_images in
  let k2 := {| ns := <["canvases" := PList Saved.canvases_one_image]> (ns k);
               log := log k |} in
  ns (snd (Iiif.cell_image_id Saved.lib k)) !! "image_id"
  = Some (PStr Saved.image_service_id) /\
  fst (Iiif.cell_loop Saved.lib k2) = fst (Iiif.cell_loop Saved.lib k) /\
  log (snd (Iiif.cell_loop Saved.lib k2)) = log (snd (Iiif.cell_loop Saved.lib k)) /\
  fst (Iiif.cell_image_id Saved.lib k2) = fst (Iiif.cell_image_id Saved.lib k) /\
  ns (snd (Iiif.cell_image_id Saved.lib k2)) !! "image_id"
  = ns (snd (Iiif.cell_image_id Saved.lib k)) !! "image_id".
Proof.
  intros k k2.
  destruct (only_first_image_read Saved.lib Saved.kernel_two_images
              Saved.canvases_two_images Saved.canvases_one_image)
    as (_ & _ & H0 & H3 & H4 & H5 & _ & H7 & _).
  - vm_compute. reflexivity.
  - constructor; [vm_compute; reflexivity | constructor].
  - subst k k2. split_and!; try assumption.
    all: rewrite H0; vm_compute; reflexivity.
Defined.

(** * Further properties of the cells *)

Lemma run_cells_app_ok (a b : list (Py unit)) k k1 :
  run_cells a k = (ok tt, k1) -> run_cells (a ++ b) k = run_cells b k1.
Proof.
  revert k. induction a as [|c a IH]; intros k H; simpl in *.
  - unfold ret in H. inversion H. reflexivity.
  - apply bind_ok_inv in H. destruct H as (u & k0 & Hc & Hrest).
    rewrite (bind_ok _ _ _ _ _ Hc). apply IH. exact Hrest.
Qed.

(** ** The IIIF notebook off the documented manifest *)

(** X1.  A manifest whose canvases are an empty array: the loop cell
    completes and prints nothing, the cell after it raises [IndexError]
    on [canvases[0]], and the run ends there, having requested the
    manifest and no image. *)
Theorem no_canvases_no_image (L : library) (pid : string) (k k4 : kernel) :
  run_cells [ Iiif.cell_ie_pid pid; Iiif.cell_manifest L; Iiif.cell_fields L;
              Iiif.cell_canvases L ] k = (ok tt, k4) ->
  ns k4 !! "canvases" = Some (PList []) ->
  Iiif.cell_loop L k4 = (ok tt, k4) /\
  Iiif.cell_image_id L k4 = (error IndexError, k4) /\
  Iiif.run L pid k = (error IndexError, k4) /\
  get_requests (log k4) = get_requests (log k) ++ [[PStr (manifest_url pid)]].
Proof.
  intros Hrun Hcs.
  assert (Hloop : Iiif.cell_loop L k4 = (ok tt, k4)).
  { unfold_cells. py_fwd. reflexivity. }
  assert (Hid : Iiif.cell_image_id L k4 = (error IndexError, k4)).
  { unfold_cells. py_fwd. reflexivity. }
  split_and!; [exact Hloop | exact Hid | |].
  - unfold Iiif.run, Iiif.cells, Iiif.manifest_cells.
    change ([ Iiif.cell_ie_pid pid; Iiif.cell_manifest L; Iiif.cell_fields L;
              Iiif.cell_canvases L; Iiif.cell_loop L; Iiif.cell_image_id L ]
              ++ Iiif.image_cells L)
      with (([ Iiif.cell_ie_pid pid; Iiif.cell_manifest L; Iiif.cell_fields L;
               Iiif.cell_canvases L ] ++ [Iiif.cell_loop L])
              ++ Iiif.cell_image_id L :: Iiif.image_cells L).
    apply run_cells_halts with (k1 := k4); [|exact Hid].
    rewrite (run_cells_app_ok _ _ _ _ Hrun). cbn [run_cells].
    rewrite (bind_ok _ _ _ _ _ Hloop). reflexivity.
  - apply read_manifest_ok in Hrun.
    destruct Hrun as (mr & resp & m & cs & _ & _ & _ & _ & _ & _ & Hlog).
    exact Hlog.
Qed.

Lemma no_canvases_no_image_witness :
  let L := Cases.lib_with_manifest Cases.manifest_no_canvases in
  Iiif.run L "IE145082" fresh_kernel
  = (error IndexError, Cases.after_canvases_cell L) /\
  get_requests (log (Cases.after_canvases_cell L))
  = [[PStr (manifest_url "IE145082")]].
Proof.
  intros L.
  destruct (no_canvases_no_image L "IE145082" fresh_kernel
              (Cases.after_canvases_cell L)) as (_ & _ & Hrun & Hlog).
  - vm_compute. reflexivity.
  - vm_compute. reflexivity.
  - split; [exact Hrun | exact Hlog].
Defined.

(** X2.  The cell that reads the manifest's fields over a manifest that
    is a dict: without ["attribution"] it raises [KeyError] and binds
    nothing; with ["attribution"] and without ["label"] it raises
    [KeyError] on ["label"] after [attribution] is bound, [title] is left
    as it was, and nothing is shown. *)
Theorem fields_missing_key (L : library) (k : kernel) (d : list (string * pyval)) :
  ns k !! "manifest" = Some (PDict d) ->
  (dict_get "attribution" d = None ->
   Iiif.cell_fields L k = (error (KeyError (PStr "attribution")), k)) /\
  (forall a,
      dict_get "attribution" d = Some a ->
      dict_get "label" d = None ->
      Iiif.cell_fields L k
      = (error (KeyError (PStr "label")),
         {| ns := <["attribution" := a]> (ns k); log := log k |})).
Proof.
  intros Hm. split.
  - intros Ha. unfold_cells. py_fwd. cbn [getitem_key]. rewrite Ha. reflexivity.
  - intros a Ha Hl. unfold_cells. py_fwd. cbn [getitem_key]. rewrite Ha.
    py_fwd. cbn [getitem_key]. rewrite Hl. reflexivity.
Qed.

Lemma fields_missing_key_witness :
  let k := Cases.kernel_with "manifest" Cases.manifest_no_label in
  Iiif.cell_fields Saved.lib k
  = (error (KeyError (PStr "label")),
     {| ns := <["attribution" := PStr "This work is out of copyright"]> (ns k);
        log := log k |}).
Proof.
  intros k.
  apply (proj2 (fields_missing_key Saved.lib k
                  [ ("attribution", PStr "This work is out of copyright");
                    ("description", PStr "") ] eq_refl)).
  - reflexivity.
  - reflexivity.
Defined.

(** X3.  When the response of the manifest request does not decode, the
    manifest cell raises what [Response.json] raised with [manifest_url]
    and [response] rebound and [manifest] as it was before the cell: a
    manifest of an earlier run stays in the kernel. *)
Theorem manifest_cell_keeps_stale_manifest
    (L : library) (k : kernel) (ie_pid mr mp resp : pyval) (e : exn) :
  import_module L "requests" = ok mr ->
  import_module L "pprint" = ok mp ->
  ns k !! "ie_pid" = Some ie_pid ->
  requests_get L (PStr (Iiif.manifest_url_of L ie_pid)) false = ok resp ->
  Response_json L resp = error e ->
  let k' := snd (Iiif.cell_manifest L k) in
  fst (Iiif.cell_manifest L k) = error e /\
  ns k' !! "manifest_url" = Some (PStr (Iiif.manifest_url_of L ie_pid)) /\
  ns k' !! "response" = Some resp /\
  ns k' !! "manifest" = ns k !! "manifest" /\
  ns k' !! "canvases" = ns k !! "canvases" /\
  ns k' !! "image_id" = ns k !! "image_id".
Proof.
  intros Hr Hp Hpid Hget Hjson k'. subst k'.
  unfold_cells. py_fwd. unfold Response_json in Hjson.
  destruct (py_getattr L resp a_json) as [json|e']; cbn [ebind] in Hjson.
  - py_fwd. destruct (callable L (Attribute json)) eqn:Hc.
    + rewrite ?Hjson. py_fwd. split_and!; reflexivity.
    + rewrite (not_callable_apply L json [] [] Hc) in Hjson.
      injection Hjson as <-. py_fwd. split_and!; reflexivity.
  - injection Hjson as <-. py_fwd. split_and!; reflexivity.
Qed.

Lemma manifest_cell_keeps_stale_manifest_witness :
  let k' := snd (Iiif.cell_manifest Cases.lib_bad_json Cases.rerun_kernel) in
  fst (Iiif.cell_manifest Cases.lib_bad_json Cases.rerun_kernel)
  = error (Raised "JSONDecodeError" "Expecting value") /\
  ns k' !! "manifest" = Some Saved.manifest /\
  ns k' !! "image_id" = Some (PStr Saved.image_service_id).
Proof.
  intros k'.
  destruct (manifest_cell_keeps_stale_manifest Cases.lib_bad_json Cases.rerun_kernel
              (PStr "IE000000") (Saved.module "requests") (Saved.module "pprint")
              Saved.response (Raised "JSONDecodeError" "Expecting value"))
    as (H1 & _ & _ & H4 & _ & H6).
  - reflexivity.
  - reflexivity.
  - vm_compute. reflexivity.
  - reflexivity.
  - reflexivity.
  - subst k'.
    split_and!; [exact H1 | rewrite H4; vm_compute; reflexivity
                 | rewrite H6; vm_compute; reflexivity].
Defined.

(** ** The image cells and the variables they share *)

(** X4.  The image cells after the first two depend on variables that
    earlier cells bind.  Where [image_id] is bound: the quality cell
    without [region] raises [NameError] with [quality] already rebound
    to [gray]; the first region cell without [rotation] raises with
    [region] and [size] already rebound; the second region cell without
    [size] raises with [region] already rebound.  None of them has
    called anything by then. *)
Theorem image_cells_need_earlier_cells (L : library) (k : kernel) (id : pyval) :
  ns k !! "image_id" = Some id ->
  (ns k !! "region" = None ->
   Iiif.cell_quality L k
   = (error (NameError "region"),
      {| ns := <["quality" := PStr "gray"]> (ns k); log := log k |})) /\
  (ns k !! "rotation" = None ->
   Iiif.cell_region_left L k
   = (error (NameError "rotation"),
      {| ns := <["size" := PStr "pct:15"]>
                 (<["region" := PStr "0,1400,2400,2300"]> (ns k));
         log := log k |})) /\
  (ns k !! "size" = None ->
   Iiif.cell_region_right L k
   = (error (NameError "size"),
      {| ns := <["region" := PStr "3400,1400,2700,2700"]> (ns k);
         log := log k |})).
Proof.
  intros Hid. split_and!; intros Hx; unfold_cells; py_fwd; reflexivity.
Qed.

Lemma image_cells_need_earlier_cells_witness :
  fst (Iiif.cell_quality Saved.lib Saved.after_cell_full) = error (NameError "region") /\
  fst (Iiif.cell_region_left Saved.lib Saved.after_cell_full)
  = error (NameError "rotation") /\
  fst (Iiif.cell_region_right Saved.lib Saved.after_cell_full) = error (NameError "size").
Proof.
  destruct (image_cells_need_earlier_cells Saved.lib Saved.after_cell_full
              (PStr Saved.image_service_id)) as (H1 & H2 & H3).
  - vm_compute. reflexivity.
  - split_and!.
    + rewrite H1; [reflexivity | vm_compute; reflexivity].
    + rewrite H2; [reflexivity | vm_compute; reflexivity].
    + rewrite H3; [reflexivity | vm_compute; reflexivity].
Defined.

(** X5.  No image cell assigns [ie_pid], [manifest], [canvases],
    [image_id] or [requests]: whether it completes or raises, they are
    after the cell what they were before it. *)
Theorem image_cells_keep_manifest_variables
    (L : library) (c : Py unit) (x : string) (k : kernel) :
  In c (Iiif.image_cells L) ->
  In x ["ie_pid"; "manifest"; "canvases"; "image_id"; "requests"] ->
  ns (snd (c k)) !! x = ns k !! x.
Proof.
  intros Hc Hx. revert k. fold (keeps x c).
  unfold Iiif.image_cells in Hc. cbn [In] in Hc, Hx.
  destruct Hc as [<-|[<-|[<-|[<-|[<-|[]]]]]];
    destruct Hx as [<-|[<-|[<-|[<-|[<-|[]]]]]];
    unfold_cells; frame.
Qed.

Lemma image_cells_keep_manifest_variables_witness :
  ns (snd (Iiif.cell_size Saved.lib Saved.after_cell_full)) !! "image_id"
  = ns Saved.after_cell_full !! "image_id".
Proof.
  apply (image_cells_keep_manifest_variables Saved.lib (Iiif.cell_size Saved.lib)
           "image_id" Saved.after_cell_full).
  - simpl. auto.
  - simpl. auto.
Defined.

(** ** The loop over the canvases *)

Section LoopProperties.

Variable L : library.

Lemma print_fields_ok image fields :
  fst (print_fields L image fields) = ok tt ->
  exists lines,
    snd (print_fields L image fields) = map EStdout lines /\
    length lines = length fields.
Proof.
  induction fields as [|[label path] fields IH]; cbn [print_fields].
  - intros _. exists []. auto.
  - destruct (ebind image _) as [v|e]; [|discriminate].
    destruct (print_fields L image fields) as [r evs]. cbn [fst snd] in *.
    intros Hr. destruct (IH Hr) as (lines & -> & Hlen).
    eexists (_ :: lines). split; [reflexivity|]. simpl. rewrite Hlen. reflexivity.
Qed.

Lemma loop_report_ok cs :
  fst (loop_report L cs) = ok tt ->
  exists lines,
    snd (loop_report L cs) = map EStdout lines /\
    length lines = (4 * length cs)%nat.
Proof.
  induction cs as [|c cs IH]; cbn [loop_report].
  - intros _. exists []. auto.
  - pose proof (print_fields_ok (getpath (obj_getitem L) c first_image_path)
                  report_fields) as Hc.
    fold (canvas_report L c) in Hc.
    destruct (canvas_report L c) as [[[]|e] evs]; cbn [fst snd] in *; [|discriminate].
    destruct (loop_report L cs) as [r evs']. cbn [fst snd] in *.
    intros Hr. destruct (IH Hr) as (lines' & -> & Hlen').
    destruct (Hc eq_refl) as (lines & -> & Hlen).
    exists (lines ++ lines'). rewrite map_app, length_app, Hlen, Hlen'.
    split; [reflexivity|]. simpl. lia.
Qed.

Lemma for_each_canvas_last cs k k' :
  for_each "canvas" cs (Iiif.loop_body L) k = (ok tt, k') ->
  ns k' !! "canvas"
  = match last cs with Some c => Some c | None => ns k !! "canvas" end.
Proof.
  revert k. induction cs as [|c cs IH]; intros k H; cbn [for_each] in H.
  - unfold ret in H. inversion H. reflexivity.
  - rewrite bind_set_var in H.
    pose proof (loop_body_run L {| ns := <["canvas" := c]> (ns k); log := log k |} c
                  (lookup_insert_eq _ _ _)) as E.
    cbn [ns log] in E.
    destruct (canvas_report L c) as [[[]|e] evs]; cbn [fst snd] in *.
    + rewrite (bind_ok _ _ _ _ _ E) in H. apply IH in H. rewrite H.
      cbn [ns]. rewrite lookup_insert_eq.
      destruct cs as [|c' cs]; [reflexivity|].
      change (last (c :: c' :: cs)) with (last (c' :: cs)).
      destruct (last (c' :: cs)) eqn:Hl; [reflexivity|].
      apply last_None in Hl. discriminate.
    + rewrite (bind_error _ _ _ _ _ E) in H. discriminate.
Qed.

End LoopProperties.

(** X6.  Over a list of canvases, a loop cell that completes has
    printed exactly four lines for each canvas and written nothing else,
    and leaves [canvas] bound to the last canvas of the list (as it was,
    over the empty list). *)
Theorem loop_prints_four_lines_per_canvas
    (L : library) (k k' : kernel) (cs : list pyval) :
  ns k !! "canvases" = Some (PList cs) ->
  Iiif.cell_loop L k = (ok tt, k') ->
  (exists lines,
      log k' = log k ++ map EStdout lines /\
      length lines = (4 * length cs)%nat) /\
  ns k' !! "canvas"
  = match last cs with Some c => Some c | None => ns k !! "canvas" end.
Proof.
  intros Hcs Hrun. split.
  - destruct (cell_loop_run L k cs Hcs) as [F1 F2].
    rewrite Hrun in F1, F2. cbn [fst snd] in F1, F2.
    destruct (loop_report_ok L cs (eq_sym F1)) as (lines & E & Hlen).
    exists lines. rewrite F2, E. auto.
  - unfold Iiif.cell_loop in Hrun.
    rewrite bind_get_var, Hcs, bind_lift in Hrun. cbn [iterate] in Hrun.
    apply (for_each_canvas_last L cs k k' Hrun).
Qed.

Lemma loop_prints_four_lines_per_canvas_witness :
  let k := Saved.kernel_two_images in
  let k' := snd (Iiif.cell_loop Saved.lib k) in
  (exists lines,
      log k' = log k ++ map EStdout lines /\
      length lines = (4 * length Saved.canvases_two_images)%nat) /\
  ns k' !! "canvas"
  = match last Saved.canvases_two_images with
    | Some c => Some c
    | None => ns k !! "canvas"
    end.
Proof.
  intros k k'.
  apply (loop_prints_four_lines_per_canvas Saved.lib k k' Saved.canvases_two_images).
  - vm_compute. reflexivity.
  - vm_compute. reflexivity.
Defined.

(** X7.  When [canvases] is not an array: over a value that cannot be
    iterated the loop cell raises what [iter] raises and binds nothing;
    over a dict that is not empty, [canvas] is bound to its first key,
    a string, and the first subscript ["images"] of it raises
    [TypeError] before anything is printed. *)
Theorem loop_over_non_array (L : library) (k : kernel) :
  (forall v e,
      ns k !! "canvases" = Some v ->
      iterate (obj_iter L) v = error e ->
      Iiif.cell_loop L k = (error e, k)) /\
  (forall key v d,
      ns k !! "canvases" = Some (PDict ((key, v) :: d)) ->
      Iiif.cell_loop L k
      = (error TypeError,
         {| ns := <["canvas" := PStr key]> (ns k); log := log k |})).
Proof.
  split.
  - intros v e Hcs Hit. unfold_cells. py_fwd. reflexivity.
  - intros key v d Hcs. unfold_cells. py_fwd. cbn [iterate map fst for_each].
    py_fwd. reflexivity.
Qed.

Lemma loop_over_non_array_witness :
  let k := Cases.after_canvases_cell
             (Cases.lib_with_manifest Cases.manifest_canvases_object) in
  Iiif.cell_loop Saved.lib k
  = (error TypeError, {| ns := <["canvas" := PStr "first"]> (ns k); log := log k |}).
Proof.
  intros k.
  apply (proj2 (loop_over_non_array Saved.lib k) "first"
               (PDict [("images", PList [])]) []).
  vm_compute. reflexivity.
Defined.

(** X8.  Over a list of canvases, when the loop cell and the cell that
    takes [image_id] both complete, the first line the loop printed is
    ["Image ID "] followed by the [image_id] bound: the image requested
    afterwards is the first one listed. *)
Theorem image_id_is_first_listed
    (L : library) (k k1 k2 : kernel) (cs : list pyval) :
  ns k !! "canvases" = Some (PList cs) ->
  Iiif.cell_loop L k = (ok tt, k1) ->
  Iiif.cell_image_id L k1 = (ok tt, k2) ->
  exists id,
    ns k2 !! "image_id" = Some id /\
    head (stdout_lines (skipn (length (log k)) (log k1)))
    = Some ("Image ID " +:+ py_format (builtin_str L) id).
Proof.
  intros Hcs Hloop Hid.
  destruct (cell_loop_run L k cs Hcs) as [F1 F2].
  rewrite Hloop in F1, F2. cbn [fst snd] in F1, F2.
  assert (Hcs1 : ns k1 !! "canvases" = Some (PList cs)).
  { pose proof (cell_loop_keeps L "canvases" ltac:(discriminate) k) as F.
    rewrite Hloop in F. cbn [snd] in F. rewrite F. exact Hcs. }
  rewrite (cell_image_id_run L k1 cs Hcs1) in Hid.
  rewrite F2, skipn_app, skipn_all, Nat.sub_diag. cbn [app skipn].
  destruct cs as [|c cs]; [discriminate|].
  cbn [getitem_int] in Hid. rewrite seq_index_head in Hid. cbn [ebind] in Hid.
  cbn [loop_report] in F1 |- *. unfold canvas_report in F1 |- *.
  destruct (getpath (obj_getitem L) c first_image_path) as [img|e];
    [|discriminate].
  cbn [ebind] in Hid. unfold report_fields in F1 |- *.
  cbn [print_fields ebind] in F1 |- *.
  cbn [getpath getitem] in Hid, F1 |- *.
  destruct (getitem_key (obj_getitem L) img "resource") as [res|e]; [|discriminate].
  destruct (getitem_key (obj_getitem L) res "service") as [svc|e]; [|discriminate].
  destruct (getitem_key (obj_getitem L) svc "@id") as [id|e]; [|discriminate].
  inversion Hid; subst k2. exists id. cbn [ns]. rewrite lookup_insert_eq.
  split; [reflexivity|].
  destruct (getitem_key (obj_getitem L) res "format") as [f|e];
    [|discriminate].
  destruct (getitem_key (obj_getitem L) res "width") as [w|e];
    [|discriminate].
  destruct (getitem_key (obj_getitem L) res "height") as [h|e];
    [|discriminate].
  cbn [fst snd] in *. destruct (loop_report L cs) as [r evs]. reflexivity.
Qed.

Lemma image_id_is_first_listed_witness :
  let k := Saved.kernel_two_images in
  let k1 := snd (Iiif.cell_loop Saved.lib k) in
  let k2 := snd (Iiif.cell_image_id Saved.lib k1) in
  exists id,
    ns k2 !! "image_id" = Some id /\
    head (stdout_lines (skipn (length (log k)) (log k1)))
    = Some ("Image ID " +:+ py_format (builtin_str Saved.lib) id).
Proof.
  intros k k1 k2.
  apply (image_id_is_first_listed Saved.lib k k1 k2 Saved.canvases_two_images).
  - vm_compute. reflexivity.
  - vm_compute. reflexivity.
  - vm_compute. reflexivity.
Defined.

(** ** The URLs *)

Lemma append_inv_head (s t u : string) : s +:+ t = s +:+ u -> t = u.
Proof.
  induction s as [|a s IH]; [auto|].
  rewrite !append_cons. intros H. injection H as H. auto.
Qed.

Lemma append_length (s t : string) :
  String.length (s +:+ t) = (String.length s + String.length t)%nat.
Proof.
  induction s as [|a s IH]; [reflexivity|].
  rewrite append_cons. simpl. rewrite IH. reflexivity.
Qed.

Lemma append_inv_tail (s t u : string) : s +:+ u = t +:+ u -> s = t.
Proof.
  revert t. induction s as [|a s IH]; intros [|b t] H.
  - reflexivity.
  - apply (f_equal String.length) in H. rewrite !append_length in H.
    simpl in H. lia.
  - apply (f_equal String.length) in H. rewrite !append_length in H.
    simpl in H. lia.
  - rewrite !append_cons in H. injection H as -> H. rewrite (IH _ H). reflexivity.
Qed.

Lemma append_last_differs (s t : string) (a b : ascii) :
  a <> b -> s +:+ String a "" <> t +:+ String b "".
Proof.
  intros Hab. revert t. induction s as [|c s IH]; intros [|d t]; str_norm; intros H.
  - congruence.
  - injection H as _ H. destruct t; discriminate.
  - injection H as _ H. destruct s; discriminate.
  - injection H as _ H. exact (IH t H).
Qed.

Lemma notebook_requests_distinct (b : string) : NoDup (notebook_requests b).
Proof.
  unfold notebook_requests, image_request.
  repeat (apply NoDup_cons_2;
          [ rewrite !list_elem_of_In; cbn [In]; intros H;
            repeat (destruct H as [H|H];
                    [apply append_inv_head in H; discriminate|]);
            exact H
          |]).
  apply NoDup_nil_2.
Qed.

(** No image request is the manifest URL: the one ends in [t], the
    others in [g]. *)
Lemma manifest_url_no_image_request (pid b : string) :
  ~ In (manifest_url pid) (notebook_requests b).
Proof.
  assert (Hm : manifest_url pid
               = ("https://rosetta.slv.vic.gov.au/delivery/iiif/presentation/2.1/"
                    +:+ pid +:+ "/manifes") +:+ "t").
  { unfold manifest_url. rewrite !append_assoc. reflexivity. }
  assert (Hi : forall r s ro q,
             image_request b r s ro q "jpg"
             = (b +:+ "/" +:+ r +:+ "/" +:+ s +:+ "/" +:+ ro +:+ "/" +:+ q +:+ ".jp")
                 +:+ "g").
  { intros r s ro q. unfold image_request. rewrite !append_assoc. reflexivity. }
  unfold notebook_requests. cbn [In]. rewrite Hm, !Hi.
  intros [H|[H|[H|[H|[H|[]]]]]];
    symmetry in H; revert H; apply append_last_differs; discriminate.
Qed.

Lemma requested_urls_app l1 l2 :
  requested_urls (l1 ++ l2) = requested_urls l1 ++ requested_urls l2.
Proof. unfold requested_urls. rewrite get_requests_app. apply omap_app. Qed.

Lemma requested_urls_of_requests (l : list event) (l' : list (list pyval)) (rs : list (list pyval)) :
  get_requests l = l' ++ rs ->
  requested_urls l = omap head l' ++ omap head rs.
Proof. intros H. unfold requested_urls. rewrite H. apply omap_app. Qed.

Lemma heads_of_streamed (urls : list string) :
  omap head (map (fun u => [PStr u; PBool true]) urls) = map PStr urls.
Proof. induction urls as [|u urls IH]; [reflexivity|]. cbn. f_equal. exact IH. Qed.

(** X9.  In a run of the IIIF notebook that completes no URL is
    requested twice: the URLs the six calls of [requests.get] were made
    on, the manifest's and the five images', differ pairwise. *)
Theorem iiif_run_requests_distinct (L : library) (pid : string) (k k' : kernel) :
  Iiif.run L pid k = (ok tt, k') ->
  exists urls,
    requested_urls (log k') = requested_urls (log k) ++ map PStr urls /\
    length urls = 6%nat /\
    NoDup urls.
Proof.
  intros H. apply iiif_run_ok in H.
  destruct H as (resp & m & cs & id & _ & _ & _ & _ & _ & _ & _ & _ & Hlog).
  exists (manifest_url pid :: notebook_requests (py_format (builtin_str L) id)).
  split_and!.
  - rewrite (requested_urls_of_requests _ _ _ Hlog).
    cbn [omap list_omap head]. rewrite heads_of_streamed. reflexivity.
  - reflexivity.
  - apply NoDup_cons_2.
    + rewrite list_elem_of_In. apply manifest_url_no_image_request.
    + apply notebook_requests_distinct.
Qed.

Lemma iiif_run_requests_distinct_witness :
  exists urls,
    requested_urls (log Saved.iiif_run)
    = requested_urls (log fresh_kernel) ++ map PStr urls /\
    length urls = 6%nat /\
    NoDup urls.
Proof.
  apply (iiif_run_requests_distinct Saved.lib "IE145082" fresh_kernel Saved.iiif_run).
  vm_compute. reflexivity.
Defined.

(** X10.  Two identifiers with the same manifest URL are the same
    identifier. *)
Theorem manifest_url_injective (L : library) (a b : string) :
  Iiif.manifest_url_of L (PStr a) = Iiif.manifest_url_of L (PStr b) -> a = b.
Proof.
  rewrite !manifest_url_of_str. unfold manifest_url. intros H.
  apply append_inv_head in H. apply append_inv_tail in H. exact H.
Qed.

Lemma manifest_url_injective_witness : "IE145082" = "IE145082".
Proof.
  apply (manifest_url_injective Saved.lib "IE145082" "IE145082"). reflexivity.
Defined.

(** ** The NER notebook *)



(** X12.  Each stage of the NER notebook needs the variable of the stage
    before it, and looks it up after [nltk] and the function in it.
    Without [nltk] bound the tokenising, tagging and tag-set cells raise
    [NameError] on [nltk].  With [nltk] bound to a value that lacks the
    function, each raises what the attribute lookup raises, before it
    looks at its argument.  With the function found, the tokenising cell
    without [about_slv] and the tagging cell without [tokens] raise
    [NameError] on these.  In all these cases the kernel stays as it was.
    The chunking cell without [tagged_tokens] raises after [svgling] is
    imported and bound.  None of them has called NLTK by then. *)
Theorem ner_cells_need_earlier_cells (L : library) (k : kernel) :
  (ns k !! "nltk" = None ->
   Ner.cell_tokens L k = (error (NameError "nltk"), k) /\
   Ner.cell_tagged_tokens L k = (error (NameError "nltk"), k) /\
   forall p, Ner.cell_tagset L p k = (error (NameError "nltk"), k)) /\
  (forall n e,
      ns k !! "nltk" = Some n ->
      (module_attr L "nltk" n a_word_tokenize = error e ->
       Ner.cell_tokens L k = (error e, k)) /\
      (module_attr L "nltk" n a_pos_tag = error e ->
       Ner.cell_tagged_tokens L k = (error e, k)) /\
      (module_attr L "nltk" n a_help = error e ->
       forall p, Ner.cell_tagset L p k = (error e, k))) /\
  (forall n f,
      ns k !! "nltk" = Some n ->
      (module_attr L "nltk" n a_word_tokenize = ok f ->
       ns k !! "about_slv" = None ->
       Ner.cell_tokens L k = (error (NameError "about_slv"), k)) /\
      (module_attr L "nltk" n a_pos_tag = ok f ->
       ns k !! "tokens" = None ->
       Ner.cell_tagged_tokens L k = (error (NameError "tokens"), k)) /\
      (forall m,
          import_module L "svgling" = ok m ->
          module_attr L "nltk" n a_ne_chunk = ok f ->
          ns k !! "tagged_tokens" = None ->
          Ner.cell_entities L k
          = (error (NameError "tagged_tokens"),
             {| ns := <["svgling" := m]> (ns k);
                log := log k ++ [ECall "import" [PStr "svgling"]] |}))).
Proof.
  split_and!.
  - intros Hn. split_and!; try intros p; unfold_cells; py_fwd; reflexivity.
  - intros n e Hn. split_and!; intros Ha; try intros p;
      unfold_cells; py_fwd; reflexivity.
  - intros n f Hn. split_and!.
    + intros Ha Hx. unfold_cells. py_fwd. reflexivity.
    + intros Ha Hx. unfold_cells. py_fwd. reflexivity.
    + intros m Hm Ha Hx. unfold_cells. py_fwd. reflexivity.
Qed.

(** With [nltk] bound to a number, the tokenising cell raises
    [AttributeError] though [about_slv] is unbound too; with [nltk] the
    module, the tagging cell raises [NameError] on [tokens]. *)
Lemma ner_cells_need_earlier_cells_witness :
  Ner.cell_tokens Saved.lib fresh_kernel = (error (NameError "nltk"), fresh_kernel) /\
  Ner.cell_tokens Saved.lib (Cases.kernel_with "nltk" (PInt 5))
  = (error (AttributeError "word_tokenize"), Cases.kernel_with "nltk" (PInt 5)) /\
  Ner.cell_tagged_tokens Saved.lib (Cases.kernel_with "nltk" (Saved.module "nltk"))
  = (error (NameError "tokens"), Cases.kernel_with "nltk" (Saved.module "nltk")).
Proof.
  split_and!.
  - apply (proj1 (ner_cells_need_earlier_cells Saved.lib fresh_kernel)).
    reflexivity.
  - apply (proj1 (proj1 (proj2 (ner_cells_need_earlier_cells Saved.lib
                                  (Cases.kernel_with "nltk" (PInt 5))))
                        (PInt 5) (AttributeError "word_tokenize") eq_refl)).
    reflexivity.
  - apply (proj1 (proj2 (proj2 (proj2 (ner_cells_need_earlier_cells Saved.lib
                                  (Cases.kernel_with "nltk" (Saved.module "nltk"))))
                                (Saved.module "nltk") LibraryFunction eq_refl))).
    + reflexivity.
    + reflexivity.
Defined.

Lemma call_names_app l1 l2 : call_names (l1 ++ l2) = call_names l1 ++ call_names l2.
Proof. unfold call_names. apply omap_app. Qed.

Lemma call_names_out_events v : call_names (out_events v) = [].
Proof. destruct v; reflexivity. Qed.

(** X13.  A run of the NER notebook that completes has called, in this
    order and each once: the shell, [import nltk], [nltk.download] five
    times, the tokeniser, the tagger, the tag-set help twice, [import
    svgling], the chunker and the tree drawing. *)
Theorem ner_run_calls (L : library) (k k' : kernel) :
  Ner.run L k = (ok tt, k') ->
  call_names (log k')
  = call_names (log k)
    ++ [ "system"; "import";
         "nltk.download"; "nltk.download"; "nltk.download"; "nltk.download";
         "nltk.download";
         "nltk.word_tokenize"; "nltk.pos_tag";
         "nltk.help.upenn_tagset"; "nltk.help.upenn_tagset";
         "import"; "nltk.ne_chunk"; "svgling.draw_tree" ].
Proof.
  intros H. unfold Ner.run, Ner.notebook in H. cbn [run_cells] in H.
  unfold_cells. py_inv H.
  rewrite ?call_names_app, ?call_names_out_events.
  cbn [call_names omap list_omap]. rewrite ?app_nil_r, <- ?app_assoc.
  reflexivity.
Qed.

Lemma ner_run_calls_witness :
  call_names (log Saved.ner_run)
  = call_names (log fresh_kernel)
    ++ [ "system"; "import";
         "nltk.download"; "nltk.download"; "nltk.download"; "nltk.download";
         "nltk.download";
         "nltk.word_tokenize"; "nltk.pos_tag";
         "nltk.help.upenn_tagset"; "nltk.help.upenn_tagset";
         "import"; "nltk.ne_chunk"; "svgling.draw_tree" ].
Proof.
  apply (ner_run_calls Saved.lib fresh_kernel Saved.ner_run).
  vm_compute. reflexivity.
Defined.

(** X14.  The download cell asks for the five resources in the order
    written and does not look at what a download returns: whatever the
    first four calls return (a [False] for a failed download included),
    the cell completes, binds [nltk] only, and shows the value of the
    last call alone. *)
Theorem download_results_not_checked (L : library) (k : kernel)
    (m r1 r2 r3 r4 r5 : pyval) :
  import_module L "nltk" = ok m ->
  nltk_download L (PStr "punkt_tab") = ok r1 ->
  nltk_download L (PStr "averaged_perceptron_tagger_eng") = ok r2 ->
  nltk_download L (PStr "maxent_ne_chunker_tab") = ok r3 ->
  nltk_download L (PStr "words") = ok r4 ->
  nltk_download L (PStr "tagsets_json") = ok r5 ->
  Ner.cell_download L k
  = (ok tt,
     {| ns := <["nltk" := m]> (ns k);
        log := log k
               ++ [ ECall "import" [PStr "nltk"];
                    ECall "nltk.download" [PStr "punkt_tab"];
                    ECall "nltk.download" [PStr "averaged_perceptron_tagger_eng"];
                    ECall "nltk.download" [PStr "maxent_ne_chunker_tab"];
                    ECall "nltk.download" [PStr "words"];
                    ECall "nltk.download" [PStr "tagsets_json"] ]
               ++ out_events r5 |}).
Proof.
  intros Hm H1 H2 H3 H4 H5.
  unfold_cells. py_fwd. rewrite <- ?app_assoc. reflexivity.
Qed.

Lemma download_results_not_checked_witness :
  fst (Ner.cell_download Saved.lib fresh_kernel) = ok tt.
Proof.
  rewrite (download_results_not_checked Saved.lib fresh_kernel
             (Saved.module "nltk") (PBool true) (PBool true) (PBool true)
             (PBool true) (PBool true));
    reflexivity.
Defined.
